(** * Email elements and the Slack ingest connector

    A shallow embedding of
      - unstructured/documents/email_elements.py   (class [Name])
      - unstructured/ingest/connector/slack.py     ([SimpleSlackConfig],
        [SlackIngestDoc])
    with the properties of the specification stated over it.

    Conventions.  Python [str] values are held as [string] in their UTF-8
    encoding, so [str.encode()] is the list of bytes of the string and
    the code-point order used by [<] on [str] is the byte order.  Python
    [float]s are held as the exact rational they stand for, in lowest
    terms.  A call that can raise returns a [result]; a method that
    mutates [self] returns the new value of [self] next to its outcome. *)

From Stdlib Require Import ZArith QArith Qround List String Ascii Lia.
From stdpp Require Import base option list numbers strings gmap pretty sorting.

Local Open Scope string_scope.
Local Open Scope Z_scope.

(** ** Exceptions and outcomes *)

Inductive exn : Type :=
  | ValueError
  | TypeError
  | KeyError
  | AttributeError
  | UnboundLocalError
  | OverflowError
  | OSError
  | SlackApiError.

Global Instance exn_eq_dec : EqDecision exn.
Proof. solve_decision. Defined.

Inductive result (A : Type) : Type :=
  | Ok (a : A)
  | Raise (e : exn).
Arguments Ok {A} a.
Arguments Raise {A} e.

Definition rbind {A B} (m : result A) (k : A -> result B) : result B :=
  match m with
  | Ok a => k a
  | Raise e => Raise e
  end.

Declare Scope py_scope.
Delimit Scope py_scope with py.
Notation "'let!' x ':=' m 'in' k" := (rbind m (fun x => k))
  (at level 10, x pattern, m at level 100, k at level 200) : py_scope.
Local Open Scope py_scope.

Definition is_ok {A} (r : result A) : bool :=
  match r with Ok _ => true | Raise _ => false end.

(** ** Dynamic values *)

Inductive PyVal : Type :=
  | VNone
  | VInt (z : Z)
  | VFloat (q : Q)
  | VStr (s : string).

Global Instance Q_eq_dec : EqDecision Q.
Proof. solve_decision. Defined.

Global Instance PyVal_eq_dec : EqDecision PyVal.
Proof. solve_decision. Defined.

(** [isinstance(v, str)] *)
Definition is_str (v : PyVal) : bool :=
  match v with VStr _ => true | _ => false end.

(** ** Civil date-times

    [utcoffset = None] is a naive [datetime]; [Some s] an aware one whose
    offset from UTC is [s] seconds. *)

Record datetime : Type := mk_datetime {
  year : Z; month : Z; day : Z;
  hour : Z; minute : Z; second : Z; microsecond : Z;
  utcoffset : option Z
}.

Global Instance datetime_eq_dec : EqDecision datetime.
Proof. solve_decision. Defined.

(** Days from 1970-01-01 to the given proleptic Gregorian date. *)
Definition days_from_civil (y m d : Z) : Z :=
  let y' := if m <=? 2 then y - 1 else y in
  let era := y' / 400 in
  let yoe := y' - era * 400 in
  let mp := (m + 9) mod 12 in
  let doy := (153 * mp + 2) / 5 + d - 1 in
  let doe := yoe * 365 + yoe / 4 - yoe / 100 + doy in
  era * 146097 + doe - 719468.

(** Microseconds between the epoch and the wall-clock reading of [d]. *)
Definition wall_micros (d : datetime) : Z :=
  (((days_from_civil (year d) (month d) (day d) * 24 + hour d) * 60
    + minute d) * 60 + second d) * 1000000 + microsecond d.

(** [a == b] on [datetime]: naive values compare field by field, aware
    values compare as instants, a naive and an aware value are unequal. *)
Definition datetime_eqb (a b : datetime) : bool :=
  match utcoffset a, utcoffset b with
  | None, None => bool_decide (a = b)
  | Some oa, Some ob =>
      bool_decide (wall_micros a - oa * 1000000 = wall_micros b - ob * 1000000)
  | _, _ => false
  end.

(** ** Built-ins used by the two modules *)

(** [str(z)] and [f"{z}"] for an [int]. *)
Definition str_of_int (z : Z) : string := pretty z.

(** [f"{v}"] for an [Optional[int]]. *)
Definition format_optional_int (o : option Z) : string :=
  match o with
  | None => "None"
  | Some z => str_of_int z
  end.

(** White space among the ASCII characters, as [str.isspace] has it. *)
Definition is_space (c : ascii) : bool :=
  let n := Z.of_N (N_of_ascii c) in
  ((9 <=? n) && (n <=? 13)) || ((28 <=? n) && (n <=? 32)).

(** The other characters of [str.isspace], by their UTF-8 bytes: U+0085
    and U+00A0 on two bytes; U+1680, U+2000 to U+200A, U+2028, U+2029,
    U+202F, U+205F and U+3000 on three. *)
Definition is_space2 (a b : ascii) : bool :=
  let x := Z.of_N (N_of_ascii a) in
  let y := Z.of_N (N_of_ascii b) in
  (x =? 194) && ((y =? 133) || (y =? 160)).

Definition is_space3 (a b c : ascii) : bool :=
  let x := Z.of_N (N_of_ascii a) in
  let y := Z.of_N (N_of_ascii b) in
  let z := Z.of_N (N_of_ascii c) in
  ((x =? 225) && (y =? 154) && (z =? 128))
  || ((x =? 226) && (y =? 128)
      && (((128 <=? z) && (z <=? 138)) || (z =? 168) || (z =? 169)
          || (z =? 175)))
  || ((x =? 226) && (y =? 129) && (z =? 159))
  || ((x =? 227) && (y =? 128) && (z =? 128)).

(** Whether [s] is one white-space character. *)
Definition is_space_char (s : string) : bool :=
  match s with
  | String a EmptyString => is_space a
  | String a (String b EmptyString) => is_space2 a b
  | String a (String b (String c EmptyString)) => is_space3 a b c
  | _ => false
  end.

(** Whether [s] starts with a white-space character. *)
Definition starts_space (s : string) : bool :=
  match s with
  | String a rest =>
      is_space a
      || match rest with
         | String b rest2 =>
             is_space2 a b
             || match rest2 with
                | String c _ => is_space3 a b c
                | EmptyString => false
                end
         | EmptyString => false
         end
  | EmptyString => false
  end.

Fixpoint lstrip (s : string) : string :=
  match s with
  | String a rest =>
      if is_space a then lstrip rest
      else
        match rest with
        | String b rest2 =>
            if is_space2 a b then lstrip rest2
            else
              match rest2 with
              | String c rest3 => if is_space3 a b c then lstrip rest3 else s
              | EmptyString => s
              end
        | EmptyString => s
        end
  | EmptyString => EmptyString
  end.

(** From the right: what is kept of the rest is known when its first
    character is looked at, and a string left with one white-space
    character is white space throughout. *)
Fixpoint rstrip (s : string) : string :=
  match s with
  | String c rest =>
      let kept := String c (rstrip rest) in
      if is_space_char kept then EmptyString else kept
  | EmptyString => EmptyString
  end.

(** [s.strip()] *)
Definition strip (s : string) : string := rstrip (lstrip s).

Definition lower_ascii (c : ascii) : ascii :=
  let n := N_of_ascii c in
  if ((65 <=? n) && (n <=? 90))%N then ascii_of_N (n + 32) else c.

(** [s.lower()], for the ASCII letters. *)
Fixpoint lower (s : string) : string :=
  match s with
  | String c rest => String (lower_ascii c) (lower rest)
  | EmptyString => EmptyString
  end.

(** [s.split(sep)] for a separator of one character: the pieces between
    the separators, empty pieces included; the empty string gives one
    empty piece. *)
Fixpoint split_on (sep : ascii) (s : string) : list string :=
  match s with
  | EmptyString => [EmptyString]
  | String c rest =>
      if bool_decide (c = sep) then EmptyString :: split_on sep rest
      else match split_on sep rest with
           | piece :: pieces => String c piece :: pieces
           | [] => [String c EmptyString]
           end
  end.

(** [sep.join(pieces)] *)
Fixpoint join (sep : string) (pieces : list string) : string :=
  match pieces with
  | [] => EmptyString
  | [piece] => piece
  | piece :: rest => piece ++ sep ++ join sep rest
  end.

(** Whether the character [c] occurs in [s]. *)
Fixpoint occurs (c : ascii) (s : string) : bool :=
  match s with
  | EmptyString => false
  | String c' rest => bool_decide (c' = c) || occurs c rest
  end.

(** How many times [c] occurs in [s]. *)
Fixpoint count_char (c : ascii) (s : string) : nat :=
  match s with
  | EmptyString => O
  | String c' rest =>
      ((if bool_decide (c' = c) then 1 else 0) + count_char c rest)%nat
  end.

(** ** hashlib.sha256 (FIPS 180-4) on 32-bit words held in [Z] *)

Module Sha256.

Definition wrap (x : Z) : Z := x mod 2 ^ 32.
Definition add32 (x y : Z) : Z := wrap (x + y).
Definition rotr (n x : Z) : Z :=
  Z.lor (Z.shiftr x n) (wrap (Z.shiftl x (32 - n))).
Definition shr (n x : Z) : Z := Z.shiftr x n.
Definition not32 (x : Z) : Z := 2 ^ 32 - 1 - x.

Definition Ch (x y z : Z) : Z :=
  Z.lxor (Z.land x y) (Z.land (not32 x) z).
Definition Maj (x y z : Z) : Z :=
  Z.lxor (Z.lxor (Z.land x y) (Z.land x z)) (Z.land y z).
Definition bsig0 (x : Z) : Z := Z.lxor (Z.lxor (rotr 2 x) (rotr 13 x)) (rotr 22 x).
Definition bsig1 (x : Z) : Z := Z.lxor (Z.lxor (rotr 6 x) (rotr 11 x)) (rotr 25 x).
Definition ssig0 (x : Z) : Z := Z.lxor (Z.lxor (rotr 7 x) (rotr 18 x)) (shr 3 x).
Definition ssig1 (x : Z) : Z := Z.lxor (Z.lxor (rotr 17 x) (rotr 19 x)) (shr 10 x).

(** The constants are read off the primes, as the standard defines
    them: the first 32 bits of the fractional parts of the cube roots of
    the first 64 primes, and of the square roots of the first 8. *)
Definition is_prime (n : Z) : bool :=
  forallb (fun d => negb (n mod d =? 0)) (seqZ 2 (n - 2)).

Definition primes : list Z := List.filter is_prime (seqZ 2 310).

(** The integer cube root of [n] below [2 ^ bits], one bit at a time. *)
Fixpoint cube_root (bits : nat) (n r : Z) : Z :=
  match bits with
  | O => r
  | S b =>
      let c := r + 2 ^ Z.of_nat b in
      if c * c * c <=? n then cube_root b n c else cube_root b n r
  end.

Definition K : list Z :=
  map (fun p => wrap (cube_root 36 (p * 2 ^ 96) 0)) primes.

(** The eight working words. *)
Record state : Type := mk_state {
  ha : Z; hb : Z; hc : Z; hd : Z; he : Z; hf : Z; hg : Z; hh : Z
}.

Definition root_word (i : nat) : Z :=
  wrap (Z.sqrt (nth i primes 0 * 2 ^ 64)).

Definition init : state :=
  mk_state (root_word 0) (root_word 1) (root_word 2) (root_word 3)
           (root_word 4) (root_word 5) (root_word 6) (root_word 7).

(** Big-endian bytes of the low [8 * n] bits of [x]. *)
Fixpoint be_bytes (n : nat) (x : Z) : list Z :=
  match n with
  | O => []
  | S n' => (Z.shiftr x (8 * Z.of_nat n')) mod 256 :: be_bytes n' x
  end.

(** The message, a [1] bit, zeros up to 56 modulo 64, the bit length. *)
Definition pad (msg : list Z) : list Z :=
  let len := Z.of_nat (length msg) in
  msg ++ [0x80] ++ repeat 0 (Z.to_nat ((55 - len) mod 64))
      ++ be_bytes 8 (8 * len).

Fixpoint be_word (bs : list Z) (acc : Z) : Z :=
  match bs with
  | [] => acc
  | b :: rest => be_word rest (acc * 256 + b)
  end.

(** [n] words of four bytes each from the front of [bs]. *)
Fixpoint words (n : nat) (bs : list Z) : list Z :=
  match n with
  | O => []
  | S n' => be_word (take 4 bs) 0 :: words n' (drop 4 bs)
  end.

(** The message schedule: [W] holds the words so far, [n] more follow. *)
Fixpoint extend (n : nat) (W : list Z) : list Z :=
  match n with
  | O => W
  | S n' =>
      let t := length W in
      let w := add32 (add32 (ssig1 (nth (t - 2) W 0)) (nth (t - 7) W 0))
                     (add32 (ssig0 (nth (t - 15) W 0)) (nth (t - 16) W 0)) in
      extend n' (W ++ [w])
  end.

Definition round (s : state) (kw : Z * Z) : state :=
  let t1 := add32 (add32 (add32 (hh s) (bsig1 (he s)))
                         (add32 (Ch (he s) (hf s) (hg s)) (fst kw))) (snd kw) in
  let t2 := add32 (bsig0 (ha s)) (Maj (ha s) (hb s) (hc s)) in
  mk_state (add32 t1 t2) (ha s) (hb s) (hc s)
           (add32 (hd s) t1) (he s) (hf s) (hg s).

Definition compress (s : state) (block : list Z) : state :=
  let W := extend 48 (words 16 block) in
  let r := fold_left round (combine K W) s in
  mk_state (add32 (ha s) (ha r)) (add32 (hb s) (hb r))
           (add32 (hc s) (hc r)) (add32 (hd s) (hd r))
           (add32 (he s) (he r)) (add32 (hf s) (hf r))
           (add32 (hg s) (hg r)) (add32 (hh s) (hh r)).

(** Compress [n] blocks of 64 bytes. *)
Fixpoint absorb (n : nat) (s : state) (bs : list Z) : state :=
  match n with
  | O => s
  | S n' => absorb n' (compress s (take 64 bs)) (drop 64 bs)
  end.

Definition digest (msg : list Z) : state :=
  let p := pad msg in
  absorb (length p / 64) init p.

Definition hex_digit (n : Z) : ascii :=
  if n <? 10 then ascii_of_N (Z.to_N (48 + n))
  else ascii_of_N (Z.to_N (87 + n)).

(** The [n] low nibbles of [x], most significant first. *)
Fixpoint hex_word (n : nat) (x : Z) : list ascii :=
  match n with
  | O => []
  | S n' => hex_digit ((Z.shiftr x (4 * Z.of_nat n')) mod 16) :: hex_word n' x
  end.

Definition hex_state (s : state) : list ascii :=
  hex_word 8 (ha s) ++ hex_word 8 (hb s) ++ hex_word 8 (hc s)
  ++ hex_word 8 (hd s) ++ hex_word 8 (he s) ++ hex_word 8 (hf s)
  ++ hex_word 8 (hg s) ++ hex_word 8 (hh s).

Definition byte_values (bs : list Byte.byte) : list Z :=
  map (fun b => Z.of_N (Byte.to_N b)) bs.

(** [hashlib.sha256(bs).hexdigest()] *)
Definition hexdigest (bs : list Byte.byte) : string :=
  string_of_list_ascii (hex_state (digest (byte_values bs))).

End Sha256.

(** [s.encode()] *)
Definition encode (s : string) : list Byte.byte := list_byte_of_string s.

(** [s[:n]] *)
Definition str_prefix (n : nat) (s : string) : string := String.substring 0 n s.

(** ** unstructured/documents/email_elements.py *)

Module Name.

(** An instance of [Name].  A [datestamp] attribute exists on the
    instance only when a [datetime] was given to [__init__]
    ([datestamp = None] is the attribute being absent); [page_number]
    is [self.metadata.page_number]. *)
Record t : Type := mk {
  name : string;
  text : string;
  datestamp : option datetime;
  id : string;
  page_number : option Z
}.

Global Instance t_eq_dec : EqDecision t.
Proof. solve_decision. Defined.

Definition set_text (s : string) (self : t) : t :=
  mk (name self) s (datestamp self) (id self) (page_number self).
Definition set_name (s : string) (self : t) : t :=
  mk s (text self) (datestamp self) (id self) (page_number self).
Definition set_id (s : string) (self : t) : t :=
  mk (name self) (text self) (datestamp self) s (page_number self).

(** The [element_id] argument of [__init__]: a [str], the [NoID] marker,
    or a value of another type. *)
Inductive element_id_arg : Type :=
  | GivenId (s : string)
  | NoID
  | OtherId.

(** [__init__]: [uuid4] is the string [uuid.uuid4()] would draw;
    [datestamp] is [Some d] when the argument is a [datetime], and only
    then is the attribute set.  The page number of a new element is
    [None]. *)
Definition __init__ (uuid4 : string) (name text : string)
    (datestamp : option datetime) (element_id : element_id_arg) : result t :=
  match element_id with
  | OtherId => Raise ValueError
  | NoID => Ok (mk name text datestamp uuid4 None)
  | GivenId s => Ok (mk name text datestamp s None)
  end.

(** The names bound in the module's global namespace: what [globals()]
    holds when a method of this module runs. *)
Definition module_globals : gset string :=
  list_to_set
    [ "__name__"; "__doc__"; "__package__"; "__loader__"; "__spec__";
      "__file__"; "__cached__"; "__builtins__";
      "hashlib"; "uuid"; "ABC"; "datetime"; "Callable"; "List"; "Union";
      "Element"; "NoID"; "Text";
      "NoDatestamp"; "EmailElement"; "Name"; "BodyText"; "Recipient";
      "Sender"; "Subject"; "MetaData"; "ReceivedInfo"; "Attachment" ].

(** [return "self.datestamp" in globals()] *)
Definition has_datestamp (globals : gset string) (self : t) : bool :=
  bool_decide ("self.datestamp" ∈ globals).

(** [self.datestamp]: an [AttributeError] when the attribute is absent. *)
Definition get_datestamp (self : t) : result datetime :=
  match datestamp self with
  | Some d => Ok d
  | None => Raise AttributeError
  end.

(** [__str__] *)
Definition __str__ (self : t) : string :=
  name self ++ ": " ++ text self.

(** [__eq__]; [and] evaluates its right operand only when the left one
    is true. *)
Definition __eq__ (globals : gset string) (self other : t) : result bool :=
  if has_datestamp globals self then
    if bool_decide (name self = name other) then
      if bool_decide (text self = text other) then
        let! a := get_datestamp self in
        let! b := get_datestamp other in
        Ok (datetime_eqb a b)
      else Ok false
    else Ok false
  else
    Ok (bool_decide (name self = name other)
        && bool_decide (text self = text other)).

(** A cleaner is any callable of one argument: it may return a value
    of any type, or raise. *)
Definition cleaner : Type := PyVal -> result PyVal.

(** The loop of [apply]: each cleaner is called on [cleaned_text], then
    on [cleaned_name]. *)
Fixpoint run_cleaners (cleaners : list cleaner)
    (cleaned_text cleaned_name : PyVal) : result (PyVal * PyVal) :=
  match cleaners with
  | [] => Ok (cleaned_text, cleaned_name)
  | c :: rest =>
      let! t' := c cleaned_text in
      let! n' := c cleaned_name in
      run_cleaners rest t' n'
  end.

(** [apply]: its outcome and the element afterwards. *)
Definition apply (cleaners : list cleaner) (self : t) : result unit * t :=
  match run_cleaners cleaners (VStr (text self)) (VStr (name self)) with
  | Raise e => (Raise e, self)
  | Ok (VStr cleaned_text, VStr cleaned_name) =>
      (Ok tt, set_name cleaned_name (set_text cleaned_text self))
  | Ok _ => (Raise ValueError, self)
  end.

(** Left-to-right composition of the cleaners on one value. *)
Fixpoint pipeline (cleaners : list cleaner) (v : PyVal) : result PyVal :=
  match cleaners with
  | [] => Ok v
  | c :: rest => let! v' := c v in pipeline rest v'
  end.

(** The value [id_to_hash] assigns, as a function of the three inputs
    it reads. *)
Definition fingerprint (txt : string) (page : option Z)
    (index_in_sequence : Z) : string :=
  let data := txt ++ format_optional_int page
                   ++ str_of_int index_in_sequence in
  str_prefix 32 (Sha256.hexdigest (encode data)).

(** [id_to_hash(index_in_sequence)]: the value returned and the element
    afterwards. *)
Definition id_to_hash (index_in_sequence : Z) (self : t)
    : string * t :=
  let data := text self ++ format_optional_int (page_number self)
                             ++ str_of_int index_in_sequence in
  let self' :=
    set_id (str_prefix 32 (Sha256.hexdigest (encode data))) self in
  (id self', self').

End Name.


(** ** Sample cleaners

    [str.strip] and [str.lower] as cleaners: a [TypeError] on a value
    that is not a [str]. *)
Definition strip_cleaner : Name.cleaner := fun v =>
  match v with VStr s => Ok (VStr (strip s)) | _ => Raise TypeError end.
Definition lower_cleaner : Name.cleaner := fun v =>
  match v with VStr s => Ok (VStr (lower s)) | _ => Raise TypeError end.

(** A cleaner that answers an integer: [len]. *)
Definition len_cleaner : Name.cleaner := fun v =>
  match v with
  | VStr s => Ok (VInt (Z.of_nat (String.length s)))
  | _ => Raise TypeError
  end.

(** ** Numbers, ordering and sorting *)

Definition digit_of (c : ascii) : option Z :=
  let n := Z.of_N (N_of_ascii c) in
  if (48 <=? n) && (n <=? 57) then Some (n - 48) else None.

(** At most [n] leading decimal digits of [s]: their value, how many
    were read, and the rest of [s]. *)
Fixpoint read_digits (n : nat) (s : string) (acc : Z) (cnt : nat)
    : Z * nat * string :=
  match n, s with
  | S n', String c rest =>
      match digit_of c with
      | Some d => read_digits n' rest (acc * 10 + d) (S cnt)
      | None => (acc, cnt, s)
      end
  | _, _ => (acc, cnt, s)
  end.

(** [x < y] on rationals. *)
Definition Qltb (x y : Q) : bool := negb (Qle_bool y x).

(** [float(s)] for a [str] in plain decimal notation: optional blanks
    around, an optional sign, digits with an optional fraction.  The
    other spellings [float] accepts (exponents, [inf], [nan],
    underscores) are outside this model and are answered [ValueError]. *)
Definition float_of_str (s : string) : result Q :=
  let s1 := strip s in
  let '(sign, s2) :=
    match s1 with
    | String "-" r => (-1, r)
    | String "+" r => (1, r)
    | _ => (1, s1)
    end in
  let '(ip, n1, s3) := read_digits (String.length s2) s2 0 0 in
  match s3 with
  | EmptyString =>
      if (n1 =? 0)%nat then Raise ValueError else Ok (inject_Z (sign * ip))
  | String "." s4 =>
      let '(fp, n2, s5) := read_digits (String.length s4) s4 0 0 in
      if bool_decide (s5 = EmptyString) && negb ((n1 + n2 =? 0)%nat) then
        Ok (Qred (Qmake (sign * (ip * 10 ^ Z.of_nat n2 + fp))
                        (Z.to_pos (10 ^ Z.of_nat n2))))
      else Raise ValueError
  | _ => Raise ValueError
  end.

(** [float(v)] *)
Definition py_float (v : PyVal) : result Q :=
  match v with
  | VInt z => Ok (inject_Z z)
  | VFloat q => Ok q
  | VStr s => float_of_str s
  | VNone => Raise TypeError
  end.

(** [a < b]: numbers by value, [str] by code points, a [TypeError] for
    [None] and for a number against a [str]. *)
Definition py_lt (a b : PyVal) : result bool :=
  match a, b with
  | VStr s, VStr t => Ok (String.ltb s t)
  | VInt x, VInt y => Ok (x <? y)
  | VInt x, VFloat y => Ok (Qltb (inject_Z x) y)
  | VFloat x, VInt y => Ok (Qltb x (inject_Z y))
  | VFloat x, VFloat y => Ok (Qltb x y)
  | _, _ => Raise TypeError
  end.

(** Stable insertion: [x] goes before the first element not below it. *)
Fixpoint py_insert (x : PyVal) (l : list PyVal) : result (list PyVal) :=
  match l with
  | [] => Ok [x]
  | y :: rest =>
      let! below := py_lt y x in
      if below : bool then
        let! rest' := py_insert x rest in Ok (y :: rest')
      else Ok (x :: y :: rest)
  end.

(** [l.sort()]: the sorted list, or the [TypeError] of a comparison.  A
    list of fewer than two elements is compared with nothing. *)
Fixpoint py_sort (l : list PyVal) : result (list PyVal) :=
  match l with
  | [] => Ok []
  | x :: rest => let! sorted := py_sort rest in py_insert x sorted
  end.

(** What [py_sort] computes on integers, without the outcomes. *)
Fixpoint insert_int (x : Z) (l : list Z) : list Z :=
  match l with
  | [] => [x]
  | y :: rest => if y <? x then y :: insert_int x rest else x :: y :: rest
  end.

Fixpoint sort_ints (l : list Z) : list Z :=
  match l with
  | [] => []
  | x :: rest => insert_int x (sort_ints rest)
  end.

(** ** A reference reading of the [datetime] functions

    [strptime], [timestamp] and [fromtimestamp] are parameters of the
    connector below.  The functions of this section are one instance of
    them, for ASCII digits and a host whose local time is UTC; the
    worked scenarios run on it. *)

Definition civil_from_days (days : Z) : Z * Z * Z :=
  let z := days + 719468 in
  let era := z / 146097 in
  let doe := z - era * 146097 in
  let yoe := (doe - doe / 1460 + doe / 36524 - doe / 146096) / 365 in
  let y := yoe + era * 400 in
  let doy := doe - (365 * yoe + yoe / 4 - yoe / 100) in
  let mp := (5 * doy + 2) / 153 in
  let d := doy - (153 * mp + 2) / 5 + 1 in
  let m := if mp <? 10 then mp + 3 else mp - 9 in
  (if m <=? 2 then y + 1 else y, m, d).

Definition fromtimestamp_utc (q : Q) : result datetime :=
  let micros := Qfloor (Qmult q (inject_Z 1000000)) in
  let secs := micros / 1000000 in
  let '(y, m, d) := civil_from_days (secs / 86400) in
  let sod := secs mod 86400 in
  if (1 <=? y) && (y <=? 9999) then
    Ok (mk_datetime y m d (sod / 3600) (sod mod 3600 / 60) (sod mod 60)
                    (micros mod 1000000) None)
  else Raise ValueError.

Definition timestamp_utc (d : datetime) : result Q :=
  let off := match utcoffset d with Some o => o | None => 0 end in
  Ok (Qred (Qmake (wall_micros d - off * 1000000) 1000000)).

Definition is_leap (y : Z) : bool :=
  ((y mod 4 =? 0) && negb (y mod 100 =? 0)) || (y mod 400 =? 0).

Definition days_in_month (y m : Z) : Z :=
  if m =? 2 then (if is_leap y then 29 else 28)
  else if (m =? 4) || (m =? 6) || (m =? 9) || (m =? 11) then 30 else 31.

(** One numeric field of one or two digits within [lo .. hi]. *)
Definition read_field (lo hi : Z) (s : string) : option (Z * string) :=
  let '(v, cnt, rest) := read_digits 2 s 0 0 in
  if negb (cnt =? 0)%nat && (lo <=? v) && (v <=? hi)
     && ((cnt =? 2)%nat || (1 <=? v) || (lo =? 0))
  then Some (v, rest) else None.

Definition read_offset (s : string) : option (Z * string) :=
  match s with
  | String "Z" rest => Some (0, rest)
  | String c rest =>
      let sign := if bool_decide (c = "+"%char) then Some 1
                  else if bool_decide (c = "-"%char) then Some (-1)
                  else None in
      match sign, read_digits 2 rest 0 0 with
      | Some sg, (hh, 2%nat, rest1) =>
          let rest2 := match rest1 with String ":" r => r | _ => rest1 end in
          match read_digits 2 rest2 0 0 with
          | (mm, 2%nat, rest3) =>
              if mm <=? 59 then Some (sg * (hh * 3600 + mm * 60), rest3)
              else None
          | _ => None
          end
      | _, _ => None
      end
  | EmptyString => None
  end.

Definition set_field (c : ascii) (v : Z) (d : datetime) : datetime :=
  let 'mk_datetime yy mo dd hh mi ss us z := d in
  if bool_decide (c = "Y"%char) then mk_datetime v mo dd hh mi ss us z
  else if bool_decide (c = "m"%char) then mk_datetime yy v dd hh mi ss us z
  else if bool_decide (c = "d"%char) then mk_datetime yy mo v hh mi ss us z
  else if bool_decide (c = "H"%char) then mk_datetime yy mo dd v mi ss us z
  else if bool_decide (c = "M"%char) then mk_datetime yy mo dd hh v ss us z
  else if bool_decide (c = "S"%char) then mk_datetime yy mo dd hh mi v us z
  else mk_datetime yy mo dd hh mi ss us (Some v).

(** What a directive reads from the front of [s]. *)
Definition read_directive (c : ascii) (s : string) : option (Z * string) :=
  if bool_decide (c = "Y"%char) then
    match read_digits 4 s 0 0 with
    | (v, 4%nat, rest) => Some (v, rest)
    | _ => None
    end
  else if bool_decide (c = "m"%char) then read_field 1 12 s
  else if bool_decide (c = "d"%char) then read_field 1 31 s
  else if bool_decide (c = "H"%char) then read_field 0 23 s
  else if bool_decide (c = "M"%char) then read_field 0 59 s
  else if bool_decide (c = "S"%char) then read_field 0 61 s
  else if bool_decide (c = "z"%char) then read_offset s
  else None.

Fixpoint strptime_go (fmt s : string) (acc : datetime) : option datetime :=
  match fmt with
  | EmptyString =>
      if bool_decide (s = EmptyString) then Some acc else None
  | String "%" (String c fmt') =>
      match read_directive c s with
      | Some (v, rest) => strptime_go fmt' rest (set_field c v acc)
      | None => None
      end
  | String c fmt' =>
      match s with
      | String c' rest =>
          if bool_decide (lower_ascii c = lower_ascii c')
          then strptime_go fmt' rest acc else None
      | EmptyString => None
      end
  end.

Definition strptime_ascii (s fmt : string) : result datetime :=
  match strptime_go fmt s (mk_datetime 1900 1 1 0 0 0 0 None) with
  | Some d =>
      if (1 <=? year d) && (day d <=? days_in_month (year d) (month d))
         && (second d <=? 59)
      then Ok d else Raise ValueError
  | None => Raise ValueError
  end.

Definition pad (width : nat) (z : Z) : string :=
  let s := str_of_int z in
  string_of_list_ascii (repeat "0"%char (width - String.length s)) ++ s.

(** [d.isoformat()] *)
Definition isoformat (d : datetime) : string :=
  pad 4 (year d) ++ "-" ++ pad 2 (month d) ++ "-" ++ pad 2 (day d) ++ "T"
  ++ pad 2 (hour d) ++ ":" ++ pad 2 (minute d) ++ ":" ++ pad 2 (second d)
  ++ (if microsecond d =? 0 then "" else "." ++ pad 6 (microsecond d))
  ++ match utcoffset d with
     | None => ""
     | Some o =>
         (if o <? 0 then "-" else "+")
         ++ pad 2 (Z.abs o / 3600) ++ ":" ++ pad 2 (Z.abs o mod 3600 / 60)
         ++ (if Z.abs o mod 60 =? 0 then "" else ":" ++ pad 2 (Z.abs o mod 60))
     end.

(** ** unstructured/ingest/connector/slack.py *)

Definition DATE_FORMATS : list string :=
  [ "%Y-%m-%d"; "%Y-%m-%dT%H:%M:%S"; "%Y-%m-%dT%H:%M:%S%z" ].

Module SimpleSlackConfig.

Record t : Type := mk {
  channels : list string;
  token : string;
  oldest : option string;
  latest : option string;
  verbose : bool
}.

(** [parse_channels]: [[x.strip() for x in channel_str.split(",")]] *)
Definition parse_channels (channel_str : string) : list string :=
  map strip (split_on "," channel_str).

Section Validation.

(** [validate_date_args] of unstructured.utils, which is not among the
    sources: the function is a parameter, typed so that it may answer a
    boolean or raise.  A raise inside [validate_inputs] is not caught
    there or in [__post_init__]: it ends the construction. *)
Context (validate_date_args : string -> result bool).

(** [if self.oldest:] holds for a string that is neither [None] nor
    empty.  The two checks run in this order: a raise of the first
    leaves the second undone. *)
Definition validate_inputs (self : t) : result (bool * bool) :=
  let! oldest_valid :=
    match oldest self with
    | Some s => if bool_decide (s = "") then Ok true else validate_date_args s
    | None => Ok true
    end in
  let! latest_valid :=
    match latest self with
    | Some s => if bool_decide (s = "") then Ok true else validate_date_args s
    | None => Ok true
    end in
  Ok (oldest_valid, latest_valid).

Definition __post_init__ (self : t) : result unit :=
  let! valid := validate_inputs self in
  let '(oldest_valid, latest_valid) := valid in
  if negb oldest_valid && negb latest_valid then Raise ValueError
  else Ok tt.

(** The constructor the dataclass generates: the fields are stored, then
    [__post_init__] runs; when it raises no object is returned. *)
Definition __init__ (channels : list string) (token : string)
    (oldest latest : option string) (verbose : bool) : result t :=
  let self := mk channels token oldest latest verbose in
  let! _ := __post_init__ self in
  Ok self.

End Validation.

End SimpleSlackConfig.

Module SlackFileMeta.

Record t : Type := mk {
  date_created : string;
  date_modified : string
}.

End SlackFileMeta.

(** The fields of [StandardConnectorConfig] the document reads. *)
Record StandardConnectorConfig : Type := mk_standard_config {
  download_dir : string;
  output_dir : string
}.

(** ** pathlib, on a POSIX host *)

(** A pure path: its root (empty, one slash or two) and its components.
    The components are the pieces between the slashes without the empty
    ones and the dots: [a//b], [a/./b] and [a/b/] are the path [a/b]; a
    [..] stays. *)
Definition PurePath : Type := string * list string.

Definition is_slash (c : ascii) : bool := bool_decide (c = "/"%char).

(** Exactly two leading slashes are kept as a root of their own. *)
Definition path_root (s : string) : string :=
  match s with
  | String c1 rest1 =>
      if is_slash c1 then
        match rest1 with
        | String c2 rest2 =>
            if is_slash c2 then
              match rest2 with
              | String c3 _ => if is_slash c3 then "/" else "//"
              | EmptyString => "//"
              end
            else "/"
        | EmptyString => "/"
        end
      else ""
  | EmptyString => ""
  end.

Definition path_parts (s : string) : list string :=
  filter (fun piece => piece <> "" /\ piece <> ".") (split_on "/" s).

(** [Path(s)] *)
Definition parse_path (s : string) : PurePath := (path_root s, path_parts s).

(** [p / s]: an absolute [s] replaces [p]. *)
Definition joinpath (p : PurePath) (s : string) : PurePath :=
  if bool_decide (path_root s = "") then (fst p, (snd p ++ path_parts s)%list)
  else parse_path s.

(** [str(p)] *)
Definition path_str (p : PurePath) : string :=
  match p with
  | (EmptyString, []) => "."
  | (root, parts) => root ++ join "/" parts
  end.

(** [p.parent] and [p.name] *)
Definition path_parent (p : PurePath) : PurePath := (fst p, removelast (snd p)).

Definition path_name (p : PurePath) : string := List.last (snd p) "".

(** A path to a file, as the world keys it: its parent directory and its
    name. *)
Definition Path : Type := string * string.

(** [Path(directory) / file_name] *)
Definition file_path (directory file_name : string) : Path :=
  let p := joinpath (parse_path directory) file_name in
  (path_str (path_parent p), path_name p).

(** A message of the Slack API, by the two keys the connector reads:
    [ts = None] is the key ["ts"] being absent, [text = None] is
    [m.get("text")] answering [None]. *)
Record message : Type := mk_message {
  ts : option PyVal;
  text : option string
}.

(** A response of the Slack client. *)
Record SlackResponse : Type := mk_response {
  pages : list message;      (* what iterating over the response yields *)
  messages : list message;   (* response["messages"] *)
  has_more : bool;           (* response["has_more"] *)
  next_cursor : PyVal        (* response["response_metadata"]["next_cursor"] *)
}.

Inductive ApiCall : Type :=
  | conversations_history (channel : string) (oldest latest : PyVal)
  | conversations_replies (channel : string) (thread_ts : PyVal)
      (cursor : PyVal).

(** What lies outside the document: the Slack service, which answers a
    call knowing the calls made before it, the calls made so far, the
    staged files (the text of each message element), the directories
    made, and the lines logged or printed. *)
Record World : Type := mk_world {
  api : list ApiCall -> ApiCall -> result SlackResponse;
  calls : list ApiCall;
  files : gmap Path (list (option string));
  dirs : gset string;
  output : list string
}.

Definition call_api (c : ApiCall) (w : World)
    : result SlackResponse * World :=
  (api w (calls w) c,
   mk_world (api w) (calls w ++ [c]) (files w) (dirs w) (output w)).

Definition emit (line : string) (w : World) : World :=
  mk_world (api w) (calls w) (files w) (dirs w) (output w ++ [line]).

Definition mkdir (d : string) (w : World) : World :=
  mk_world (api w) (calls w) (files w) (dirs w ∪ {[ d ]}) (output w).

Definition write_file (p : Path) (content : list (option string))
    (w : World) : World :=
  mk_world (api w) (calls w) (<[ p := content ]> (files w)) (dirs w)
           (output w).

(** What the file system does to one run of [get_file] when it fails:
    the exception [mkdir] raises, if any, and the exception [tree.write]
    raises, if any, with what it leaves at the path ([None] when the file
    was not opened, a partial content otherwise). *)
Record Faults : Type := mk_faults {
  mkdir_fault : option exn;
  write_fault : option (exn * option (list (option string)))
}.

Definition no_faults : Faults := mk_faults None None.

(** [str(v)] for an [Optional[str]]. *)
Definition str_of_optional (o : option string) : string :=
  match o with Some s => s | None => "None" end.

Module SlackIngestDoc.

Record t : Type := mk {
  standard_config : StandardConnectorConfig;
  config : SimpleSlackConfig.t;
  channel : string;
  token : string;
  oldest : option string;
  latest : option string;
  file_exists : option bool;
  file_meta : option SlackFileMeta.t;
  registry_name : string;
  client : option string     (* the token [self.client] was built with *)
}.

Definition set_file_exists (b : option bool) (self : t) : t :=
  mk (standard_config self) (config self) (channel self) (token self)
     (oldest self) (latest self) b (file_meta self) (registry_name self)
     (client self).

Definition set_file_meta (m : option SlackFileMeta.t) (self : t) : t :=
  mk (standard_config self) (config self) (channel self) (token self)
     (oldest self) (latest self) (file_exists self) m (registry_name self)
     (client self).

Definition set_client (c : option string) (self : t) : t :=
  mk (standard_config self) (config self) (channel self) (token self)
     (oldest self) (latest self) (file_exists self) (file_meta self)
     (registry_name self) c.

(** The document as [get_ingest_docs] builds it. *)
Definition new (standard_config : StandardConnectorConfig)
    (config : SimpleSlackConfig.t) (channel token : string)
    (oldest latest : option string) : t :=
  mk standard_config config channel token oldest latest (Some false) None
     "slack" None.

Definition _tmp_download_file (self : t) : Path :=
  file_path (download_dir (standard_config self)) (channel self ++ ".xml").

Definition _output_filename (self : t) : Path :=
  file_path (output_dir (standard_config self)) (channel self ++ ".json").

Definition filename (self : t) : Path := _tmp_download_file self.

Definition _create_full_tmp_dir_path (self : t) (w : World) : World :=
  mkdir (fst (_tmp_download_file self)) w.

Section Library.

(** [datetime.strptime], [datetime.timestamp] and
    [datetime.fromtimestamp]; the last two read the host's time zone. *)
Context (strptime : string -> string -> result datetime)
        (timestamp : datetime -> result Q)
        (fromtimestamp : Q -> result datetime).

(** The loop of [convert_datetime]: a [ValueError] moves on to the next
    format, the end of the loop returns [None]. *)
Fixpoint convert_formats (formats : list string) (date_time : string)
    : result PyVal :=
  match formats with
  | [] => Ok VNone
  | format :: rest =>
      match (let! d := strptime date_time format in timestamp d) with
      | Ok stamp => Ok (VFloat stamp)
      | Raise ValueError => convert_formats rest date_time
      | Raise e => Raise e
      end
  end.

Definition convert_datetime (date_time : string) : result PyVal :=
  convert_formats DATE_FORMATS date_time.

(** One bound of the history call: ["0"] unless the field is a
    non-empty string, which is converted. *)
Definition bound (field : option string) : result PyVal :=
  match field with
  | Some s => if bool_decide (s = "") then Ok (VStr "0") else convert_datetime s
  | None => Ok (VStr "0")
  end.

(** The [try] block of [_fetch_messages]. *)
Definition history_call (self : t) (w : World)
    : result SlackResponse * World :=
  match bound (oldest self) with
  | Raise e => (Raise e, w)
  | Ok oldest' =>
      match bound (latest self) with
      | Raise e => (Raise e, w)
      | Ok latest' =>
          call_api (conversations_history (channel self) oldest' latest') w
      end
  end.

Definition _fetch_messages (st : t * World)
    : result SlackResponse * (t * World) :=
  let '(self, w) := st in
  let self := set_client (Some (token self)) self in
  match history_call self w with
  | (Raise SlackApiError, w') =>
      (Raise SlackApiError,
       (set_file_exists (Some false) self, emit "Error: SlackApiError" w'))
  | (Raise e, w') => (Raise e, (self, w'))
  | (Ok result, w') => (Ok result, (set_file_exists (Some true) self, w'))
  end.

(** [[m["ts"] for m in messages]] *)
Fixpoint timestamps_of (ms : list message) : result (list PyVal) :=
  match ms with
  | [] => Ok []
  | m :: rest =>
      match ts m with
      | None => Raise KeyError
      | Some v => let! vs := timestamps_of rest in Ok (v :: vs)
      end
  end.

(** The body of [get_file_metadata] once the messages are at hand.  On
    an empty list neither [created] nor [modified] is bound when the
    record is built. *)
Definition file_meta_of (ms : list message) : result SlackFileMeta.t :=
  let! timestamps := timestamps_of ms in
  let! timestamps := py_sort timestamps in
  match timestamps with
  | [] => Raise UnboundLocalError
  | first :: _ =>
      let! lo := py_float first in
      let! created := fromtimestamp lo in
      let! hi := py_float (List.last timestamps first) in
      let! modified := fromtimestamp hi in
      Ok (SlackFileMeta.mk (isoformat created) (isoformat modified))
  end.

Definition get_file_metadata (msgs : option (list message))
    (st : t * World) : result unit * (t * World) :=
  let '(fetched, (self, w)) :=
    match msgs with
    | Some ms => (Ok ms, st)
    | None =>
        let '(r, st') := _fetch_messages st in
        (let! response := r in Ok (pages response), st')
    end in
  match (let! ms := fetched in file_meta_of ms) with
  | Raise e => (Raise e, (self, w))
  | Ok meta => (Ok tt, (set_file_meta (Some meta) self, w))
  end.

(** The property [exists]. *)
Definition exists_ (st : t * World) : result (option bool) * (t * World) :=
  match file_exists (fst st) with
  | None =>
      let '(r, (self, w)) := get_file_metadata None st in
      (let! _ := r in Ok (file_exists self), (self, w))
  | Some _ => (Ok (file_exists (fst st)), st)
  end.

(** [self.file_meta.<field>]: an [AttributeError] on [None]. *)
Definition meta_field (field : SlackFileMeta.t -> string) (self : t)
    : result string :=
  match file_meta self with
  | Some m => Ok (field m)
  | None => Raise AttributeError
  end.

(** The properties [date_created] and [date_modified]. *)
Definition date_created (st : t * World) : result string * (t * World) :=
  match file_meta (fst st) with
  | None =>
      let '(r, (self, w)) := get_file_metadata None st in
      (let! _ := r in meta_field SlackFileMeta.date_created self, (self, w))
  | Some m => (Ok (SlackFileMeta.date_created m), st)
  end.

Definition date_modified (st : t * World) : result string * (t * World) :=
  match file_meta (fst st) with
  | None =>
      let '(r, (self, w)) := get_file_metadata None st in
      (let! _ := r in meta_field SlackFileMeta.date_modified self, (self, w))
  | Some m => (Ok (SlackFileMeta.date_modified m), st)
  end.

(** The inner [for reply in response["messages"]] loop on the text of
    the message element; [str.join] wants a [str] for [reply_msg]. *)
Fixpoint add_replies (text_elem : option string) (replies : list message)
    : result (option string) :=
  match replies with
  | [] => Ok text_elem
  | reply :: rest =>
      match text reply with
      | None => Raise TypeError
      | Some reply_msg =>
          add_replies
            (Some (str_of_optional text_elem ++ " <reply> " ++ reply_msg))
            rest
      end
  end.

(** The [while True] loop over the pages of replies to one message;
    [fuel] bounds the number of turns and [None] is the loop still
    running when it is spent.  A [SlackApiError] is printed and the loop
    turns again with the same cursor; any other exception leaves the
    loop. *)
Fixpoint replies_loop (fuel : nat) (self : t) (m : message)
    (text_elem : option string) (cursor : PyVal) (w : World)
    : option (result (option string) * World) :=
  match fuel with
  | O => None
  | S fuel' =>
      match ts m with
      | None => Some (Raise KeyError, w)
      | Some thread_ts =>
          match call_api
                  (conversations_replies (channel self) thread_ts cursor) w
          with
          | (Raise SlackApiError, w') =>
              replies_loop fuel' self m text_elem cursor
                (emit "Error retrieving replies" w')
          | (Raise e, w') => Some (Raise e, w')
          | (Ok response, w') =>
              match add_replies text_elem (messages response) with
              | Raise e => Some (Raise e, w')
              | Ok text_elem' =>
                  if negb (has_more response) then Some (Ok text_elem', w')
                  else replies_loop fuel' self m text_elem'
                         (next_cursor response) w'
              end
          end
      end
  end.

(** The [for message in result["messages"]] loop: the text of each
    message element, in order. *)
Fixpoint message_loop (fuel : nat) (self : t) (ms : list message)
    (w : World) : option (result (list (option string)) * World) :=
  match ms with
  | [] => Some (Ok [], w)
  | m :: rest =>
      match replies_loop fuel self m (text m) VNone w with
      | None => None
      | Some (Raise e, w') => Some (Raise e, w')
      | Some (Ok text_elem, w') =>
          match message_loop fuel self rest w' with
          | None => None
          | Some (Raise e, w'') => Some (Raise e, w'')
          | Some (Ok texts, w'') => Some (Ok (text_elem :: texts), w'')
          end
      end
  end.

(** The body of [get_file], on a file system that does not fail;
    [get_file_body_io] below has the failures of [mkdir] and of
    [tree.write]. *)
Definition get_file_body (fuel : nat) (st : t * World)
    : option (result unit * (t * World)) :=
  let '(self, w) := st in
  let w := _create_full_tmp_dir_path self w in
  let w :=
    if SimpleSlackConfig.verbose (config self)
    then emit ("fetching channel " ++ channel self) w else w in
  match _fetch_messages (self, w) with
  | (Raise e, st') => Some (Raise e, st')
  | (Ok result, (self, w)) =>
      match message_loop fuel self (messages result) w with
      | None => None
      | Some (Raise e, w') => Some (Raise e, (self, w'))
      | Some (Ok root, w') =>
          match get_file_metadata (Some (messages result)) (self, w') with
          | (Raise e, st') => Some (Raise e, st')
          | (Ok _, (self, w'')) =>
              Some (Ok tt,
                    (self, write_file (_tmp_download_file self) root w''))
          end
      end
  end.

(** The body of [get_file] on a file system that may fail: [mkdir] is
    the first statement and [tree.write] the last, after
    [get_file_metadata] has stored the metadata.  [get_file_body] is the
    run in which neither fails. *)
Definition get_file_body_io (faults : Faults) (fuel : nat) (st : t * World)
    : option (result unit * (t * World)) :=
  let '(self, w) := st in
  match mkdir_fault faults with
  | Some e => Some (Raise e, (self, w))
  | None =>
      let w := _create_full_tmp_dir_path self w in
      let w :=
        if SimpleSlackConfig.verbose (config self)
        then emit ("fetching channel " ++ channel self) w else w in
      match _fetch_messages (self, w) with
      | (Raise e, st') => Some (Raise e, st')
      | (Ok result, (self, w)) =>
          match message_loop fuel self (messages result) w with
          | None => None
          | Some (Raise e, w') => Some (Raise e, (self, w'))
          | Some (Ok root, w') =>
              match get_file_metadata (Some (messages result)) (self, w') with
              | (Raise e, st') => Some (Raise e, st')
              | (Ok _, (self, w'')) =>
                  match write_fault faults with
                  | Some (e, Some partial) =>
                      Some (Raise e,
                            (self,
                             write_file (_tmp_download_file self) partial w''))
                  | Some (e, None) => Some (Raise e, (self, w''))
                  | None =>
                      Some (Ok tt,
                            (self,
                             write_file (_tmp_download_file self) root w''))
                  end
              end
          end
      end
  end.

(** Modelled from the spec: the decorator [skip_if_file_exists] belongs
    to [BaseIngestDoc] in unstructured.ingest.interfaces, which is not
    among the sources.  The spec has the fetch guarded by a
    skip-if-already-fetched policy: if the local staging file already
    exists on disk, the fetch routine does not re-run. *)
Definition skip_if_file_exists
    (func : t * World -> option (result unit * (t * World)))
    (st : t * World) : option (result unit * (t * World)) :=
  if bool_decide (is_Some (files (snd st) !! filename (fst st)))
  then Some (Ok tt, st)
  else func st.

Definition get_file (fuel : nat) (st : t * World)
    : option (result unit * (t * World)) :=
  skip_if_file_exists (get_file_body fuel) st.

End Library.

End SlackIngestDoc.

Module SlackConnector.

(** [get_ingest_docs]: one document for each configured channel. *)
Definition get_ingest_docs (standard_config : StandardConnectorConfig)
    (config : SimpleSlackConfig.t) : list SlackIngestDoc.t :=
  map (fun channel =>
         SlackIngestDoc.new standard_config config channel
           (SimpleSlackConfig.token config) (SimpleSlackConfig.oldest config)
           (SimpleSlackConfig.latest config))
      (SimpleSlackConfig.channels config).

End SlackConnector.

(** ** Worked elements *)

Definition is_hex_digit (c : ascii) : bool :=
  let n := Z.of_N (N_of_ascii c) in
  ((48 <=? n) && (n <=? 57)) || ((97 <=? n) && (n <=? 102)).

Definition new_year_2020 : datetime := mk_datetime 2020 1 1 0 0 0 0 None.
Definition new_year_2021 : datetime := mk_datetime 2021 1 1 0 0 0 0 None.

(** Two senders that differ in their datestamps only. *)
Definition sender_2020 : Name.t :=
  Name.mk "From" "ada@example.org" (Some new_year_2020) "a" None.
Definition sender_2021 : Name.t :=
  Name.mk "From" "ada@example.org" (Some new_year_2021) "b" None.

Definition greeting : Name.t := Name.mk "Bob" " Hello " None "c" (Some 3).

(** ** Worked configurations, services and documents *)

(** Whether a bound is a non-empty string on which the validator does
    not answer: [validate_inputs] hands it to [validate_date_args], which
    raises. *)
Definition supplied_invalid (validate_date_args : string -> result bool)
    (field : option string) : bool :=
  match field with
  | Some s => negb (bool_decide (s = "")) && negb (is_ok (validate_date_args s))
  | None => false
  end.

(** Whether the argument parses under one of the accepted formats, on the
    reference reading of [strptime]. *)
Definition parses_ascii (s : string) : bool :=
  existsb (fun format => is_ok (strptime_ascii s format)) DATE_FORMATS.

(** Modelled from the spec: [validate_date_args] of unstructured.utils is
    not among the sources.  The spec has the bounds validated against a
    fixed set of accepted formats and has a malformed bound raised as an
    error at construction time: the function answers [True] for a date
    that parses under one of the formats and raises [ValueError] for any
    other; it never answers [False]. *)
Definition validate_date_args_ascii (date : string) : result bool :=
  if parses_ascii date then Ok true else Raise ValueError.

Definition std_config : StandardConnectorConfig :=
  mk_standard_config "/tmp/slack" "/tmp/out".

Definition slack_config : SimpleSlackConfig.t :=
  SimpleSlackConfig.mk ["C01"] "xoxb-1" None None false.

(** The document [get_ingest_docs] builds for channel C01, and the same
    document with [file_exists] given as [None]. *)
Definition fresh_doc : SlackIngestDoc.t :=
  SlackIngestDoc.new std_config slack_config "C01" "xoxb-1" None None.

Definition unknown_doc : SlackIngestDoc.t :=
  SlackIngestDoc.set_file_exists None fresh_doc.

Definition quiet_world (service : list ApiCall -> ApiCall -> result SlackResponse)
    : World :=
  mk_world service [] ∅ ∅ [].

Definition msg (stamp body : string) : message :=
  mk_message (Some (VStr stamp)) (Some body).

(** A service that answers every call with the same messages. *)
Definition steady_service (ms : list message)
    : list ApiCall -> ApiCall -> result SlackResponse :=
  fun _ _ => Ok (mk_response ms ms false VNone).

(** A service whose responses, iterated over, yield one page that has
    no timestamp of its own, while the messages sit under ["messages"]. *)
Definition paged_service (ms : list message)
    : list ApiCall -> ApiCall -> result SlackResponse :=
  fun _ _ => Ok (mk_response [mk_message (Some VNone) None] ms false VNone).

(** A service that fails every call. *)
Definition down_service : list ApiCall -> ApiCall -> result SlackResponse :=
  fun _ _ => Raise SlackApiError.

Definition is_replies_call (c : ApiCall) : bool :=
  match c with
  | conversations_replies _ _ _ => true
  | conversations_history _ _ _ => false
  end.

(** A service whose first call for replies fails and whose other calls
    succeed. *)
Definition flaky_service : list ApiCall -> ApiCall -> result SlackResponse :=
  fun past c =>
    if is_replies_call c && negb (existsb is_replies_call past)
    then Raise SlackApiError
    else Ok (mk_response [msg "100" "hi"] [msg "100" "hi"] false VNone).

(** A service whose calls for replies always fail. *)
Definition no_replies_service
    : list ApiCall -> ApiCall -> result SlackResponse :=
  fun _ c =>
    if is_replies_call c then Raise SlackApiError
    else Ok (mk_response [msg "100" "hi"] [msg "100" "hi"] false VNone).

(** The timestamps 100, 500 and 250 of the spec's scenario, and the same
    with 1000 added. *)
Definition three_messages : list message :=
  [ msg "100" "a"; msg "500" "b"; msg "250" "c" ].

Definition four_messages : list message :=
  [ msg "100" "a"; msg "500" "b"; msg "250" "c"; msg "1000" "d" ].

(** What the replies add to the text of a message element. *)
Definition replies_suffix (reply_texts : list string) : string :=
  fold_right (fun reply_msg rest => " <reply> " ++ reply_msg ++ rest) ""
             reply_texts.

(** The kinds of values [<] orders among themselves. *)
Inductive kind : Type := KNone | KNumber | KStr.

Definition kind_of (v : PyVal) : kind :=
  match v with
  | VNone => KNone
  | VInt _ | VFloat _ => KNumber
  | VStr _ => KStr
  end.

(** U+00A0 and U+2003 in UTF-8. *)
Definition no_break_space : string :=
  String (ascii_of_nat 194) (String (ascii_of_nat 160) "").

Definition em_space : string :=
  String (ascii_of_nat 226) (String (ascii_of_nat 128)
    (String (ascii_of_nat 131) "")).

(** The documents of the channels C01 and ./C01. *)
Definition dotted_doc : SlackIngestDoc.t :=
  SlackIngestDoc.new std_config slack_config "./C01" "xoxb-1" None None.

(** A disk that fills up during the write. *)
Definition disk_full : Faults :=
  mk_faults None (Some (OSError, Some [Some "a"])).

(** * Properties of the email elements *)

Lemma has_datestamp_false (self : Name.t) :
  Name.has_datestamp Name.module_globals self = false.
Proof. unfold Name.has_datestamp. vm_compute. reflexivity. Qed.

(** With the globals of its module, [__eq__] is equality of [name] and
    [text]: the datestamps are never read. *)
Lemma Name_eq_name_text (a b : Name.t) :
  Name.__eq__ Name.module_globals a b
  = Ok (bool_decide (Name.name a = Name.name b)
        && bool_decide (Name.text a = Name.text b)).
Proof. unfold Name.__eq__. rewrite has_datestamp_false. reflexivity. Qed.

(** C1 (the code departs from it).  Two elements with the same [name] and
    [text] whose datestamps are both present and differ should be
    unequal; [__eq__] answers [True] for them, because [has_datestamp]
    looks the string "self.datestamp" up in [globals()] and so never
    takes the branch that compares datestamps. *)
Theorem Name_eq_differing_datestamps :
  Name.datestamp sender_2020 = Some new_year_2020
  /\ Name.datestamp sender_2021 = Some new_year_2021
  /\ datetime_eqb new_year_2020 new_year_2021 = false
  /\ Name.__eq__ Name.module_globals sender_2020 sender_2021 = Ok true.
Proof.
  rewrite Name_eq_name_text. repeat split; reflexivity.
Qed.

(** The loop of [apply] is the two pipelines run side by side. *)
Lemma run_cleaners_pipeline (cleaners : list Name.cleaner) :
  forall t n vt vn,
    Name.pipeline cleaners t = Ok vt ->
    Name.pipeline cleaners n = Ok vn ->
    Name.run_cleaners cleaners t n = Ok (vt, vn).
Proof.
  induction cleaners as [|c rest IH]; intros t n vt vn Ht Hn; simpl in *.
  - congruence.
  - destruct (c t) as [t'|e] eqn:Et; simpl in Ht; [|discriminate].
    destruct (c n) as [n'|e] eqn:En; simpl in Hn; [|discriminate].
    simpl. apply IH; assumption.
Qed.

(** C4.  When the cleaners, run in order, end on a value that is not a
    string for [text] or for [name], [apply] raises the [ValueError]
    "Cleaner produced a non-string output." and the element is as it was
    before the call. *)
Theorem apply_rejects_non_string (self : Name.t)
    (cleaners : list Name.cleaner) (vt vn : PyVal) :
  Name.pipeline cleaners (VStr (Name.text self)) = Ok vt ->
  Name.pipeline cleaners (VStr (Name.name self)) = Ok vn ->
  is_str vt = false \/ is_str vn = false ->
  Name.apply cleaners self = (Raise ValueError, self).
Proof.
  intros Ht Hn Hbad. unfold Name.apply.
  rewrite (run_cleaners_pipeline cleaners _ _ _ _ Ht Hn).
  destruct vt, vn; simpl in Hbad; try reflexivity.
  destruct Hbad; discriminate.
Qed.

(** X4.  Whatever [apply] raises, be it the [ValueError] of its own
    check or an exception of a cleaner, it raises before the
    assignments: the element is left as it was. *)
Lemma apply_raise_keeps_element (self : Name.t)
    (cleaners : list Name.cleaner) (e : exn) :
  fst (Name.apply cleaners self) = Raise e ->
  snd (Name.apply cleaners self) = self.
Proof.
  unfold Name.apply.
  destruct (Name.run_cleaners _ _ _) as [[[] []]|]; simpl;
    try reflexivity; discriminate.
Qed.

Lemma apply_rejects_non_string_witness :
  Name.apply [strip_cleaner; len_cleaner] greeting = (Raise ValueError, greeting).
Proof.
  apply (apply_rejects_non_string greeting [strip_cleaner; len_cleaner]
           (VInt 5) (VInt 3)).
  - reflexivity.
  - reflexivity.
  - left. reflexivity.
Defined.

(** C7.  [apply] threads each field through the cleaners in order: when
    the pipelines end on strings, these are the new [text] and [name],
    and nothing else of the element changes. *)
Theorem apply_composes_cleaners (self : Name.t)
    (cleaners : list Name.cleaner) (t' n' : string) :
  Name.pipeline cleaners (VStr (Name.text self)) = Ok (VStr t') ->
  Name.pipeline cleaners (VStr (Name.name self)) = Ok (VStr n') ->
  Name.apply cleaners self
  = (Ok tt, Name.mk n' t' (Name.datestamp self) (Name.id self)
                    (Name.page_number self)).
Proof.
  intros Ht Hn. unfold Name.apply.
  rewrite (run_cleaners_pipeline cleaners _ _ _ _ Ht Hn). reflexivity.
Qed.

(** [strip] then [lower] on the text " Hello " gives "hello". *)
Lemma apply_composes_cleaners_witness :
  Name.apply [strip_cleaner; lower_cleaner] greeting
  = (Ok tt, Name.mk "bob" "hello" None "c" (Some 3)).
Proof.
  apply (apply_composes_cleaners greeting [strip_cleaner; lower_cleaner]
           "hello" "bob").
  - reflexivity.
  - reflexivity.
Defined.

(** *** The fingerprint *)

Lemma hex_word_length (n : nat) (x : Z) : length (Sha256.hex_word n x) = n.
Proof. induction n as [|n IH]; simpl; [reflexivity | now rewrite IH]. Qed.

Lemma hex_state_length (s : Sha256.state) :
  length (Sha256.hex_state s) = 64%nat.
Proof.
  unfold Sha256.hex_state.
  rewrite !length_app, !hex_word_length. reflexivity.
Qed.

Lemma hex_digit_is_hex (k : Z) :
  0 <= k < 16 -> is_hex_digit (Sha256.hex_digit k) = true.
Proof.
  intros Hk.
  assert (Hcases : k = 0 \/ k = 1 \/ k = 2 \/ k = 3 \/ k = 4 \/ k = 5
                   \/ k = 6 \/ k = 7 \/ k = 8 \/ k = 9 \/ k = 10 \/ k = 11
                   \/ k = 12 \/ k = 13 \/ k = 14 \/ k = 15) by lia.
  repeat (destruct Hcases as [-> | Hcases]; [reflexivity|]).
  subst k. reflexivity.
Qed.

Lemma hex_word_is_hex (n : nat) (x : Z) :
  Forall (fun c => is_hex_digit c = true) (Sha256.hex_word n x).
Proof.
  induction n as [|n IH]; simpl; constructor; [|exact IH].
  apply hex_digit_is_hex. apply Z.mod_pos_bound. lia.
Qed.

Lemma hex_state_is_hex (s : Sha256.state) :
  Forall (fun c => is_hex_digit c = true) (Sha256.hex_state s).
Proof.
  unfold Sha256.hex_state.
  repeat (apply Forall_app; split); apply hex_word_is_hex.
Qed.

Lemma string_of_list_ascii_length (l : list ascii) :
  String.length (string_of_list_ascii l) = length l.
Proof. induction l as [|c l IH]; simpl; [reflexivity | now rewrite IH]. Qed.

Lemma str_prefix_chars (n : nat) (s : string) :
  list_ascii_of_string (str_prefix n s) = take n (list_ascii_of_string s).
Proof.
  unfold str_prefix. revert s.
  induction n as [|n IH]; intros [|c s]; simpl; try reflexivity.
  now rewrite IH.
Qed.

Lemma str_prefix_length (n : nat) (s : string) :
  (n <= String.length s)%nat -> String.length (str_prefix n s) = n.
Proof.
  unfold str_prefix. revert s.
  induction n as [|n IH]; intros [|c s] Hn; simpl in *; try reflexivity; try lia.
  rewrite IH; [reflexivity | lia].
Qed.

Lemma fingerprint_length (txt : string) (page : option Z) (i : Z) :
  String.length (Name.fingerprint txt page i) = 32%nat.
Proof.
  unfold Name.fingerprint, Sha256.hexdigest.
  apply str_prefix_length.
  rewrite string_of_list_ascii_length, hex_state_length. lia.
Qed.

Lemma fingerprint_is_hex (txt : string) (page : option Z) (i : Z) :
  Forall (fun c => is_hex_digit c = true)
         (list_ascii_of_string (Name.fingerprint txt page i)).
Proof.
  unfold Name.fingerprint, Sha256.hexdigest.
  rewrite str_prefix_chars, list_ascii_of_string_of_list_ascii.
  apply Forall_take, hex_state_is_hex.
Qed.

(** C5.  [id_to_hash] returns the first 32 hexadecimal characters of the
    SHA-256 of [text], [page_number] and the index written one after the
    other, and stores that value as the element's [id], leaving the other
    fields alone.  The value depends on these three inputs only, is 32
    characters long, is made of hexadecimal digits, and a second call
    with the same index returns it again. *)
Theorem id_to_hash_fingerprint (self : Name.t) (i : Z) :
  let r := Name.fingerprint (Name.text self) (Name.page_number self) i in
  Name.id_to_hash i self = (r, Name.set_id r self)
  /\ String.length r = 32%nat
  /\ Forall (fun c => is_hex_digit c = true) (list_ascii_of_string r)
  /\ Name.id_to_hash i (Name.set_id r self) = (r, Name.set_id r self).
Proof.
  intros r. split; [reflexivity|]. split; [apply fingerprint_length|].
  split; [apply fingerprint_is_hex | reflexivity].
Qed.

(** The identity of the spec's example: text "Hello", page 3, index 5. *)
Example fingerprint_hello :
  Name.fingerprint "Hello" (Some 3) 5 = "b025548ecaf83c16404a7039d9e82e70".
Proof. vm_compute. reflexivity. Qed.

Example sha256_abc :
  Sha256.hexdigest (encode "abc")
  = "ba7816bf8f01cfea414140de5dae2223b00361a396177a9cb410ff61f20015ad".
Proof. vm_compute. reflexivity. Qed.

(** * Properties of the Slack connector *)

(** The check of [__post_init__] on the two answers: it raises when both
    are [False] and passes otherwise. *)
Lemma post_init_check (validate_date_args : string -> result bool)
    (self : SimpleSlackConfig.t) (oldest_valid latest_valid : bool) :
  SimpleSlackConfig.validate_inputs validate_date_args self
  = Ok (oldest_valid, latest_valid) ->
  SimpleSlackConfig.__post_init__ validate_date_args self
  = if negb oldest_valid && negb latest_valid then Raise ValueError else Ok tt.
Proof.
  intros H. unfold SimpleSlackConfig.__post_init__. rewrite H. reflexivity.
Qed.

(** A raise of the validator on a supplied bound ends the construction
    with that exception, whatever the other bound is: first the one of
    [oldest], then the one of [latest]. *)
Lemma config_init_validator_raises
    (validate_date_args : string -> result bool)
    (channels : list string) (token : string) (oldest latest : option string)
    (verbose : bool) (s : string) (e : exn) :
  s <> "" ->
  validate_date_args s = Raise e ->
  (oldest = Some s ->
   SimpleSlackConfig.__init__ validate_date_args channels token oldest latest
     verbose = Raise e)
  /\ (latest = Some s ->
      (exists e', SimpleSlackConfig.__init__ validate_date_args channels token
                    oldest latest verbose = Raise e')).
Proof.
  intros Hs He.
  unfold SimpleSlackConfig.__init__, SimpleSlackConfig.__post_init__,
    SimpleSlackConfig.validate_inputs; simpl.
  split; intros ->.
  - rewrite bool_decide_eq_false_2 by exact Hs. rewrite He. reflexivity.
  - rewrite (bool_decide_eq_false_2 (s = "")) by exact Hs. rewrite He.
    destruct oldest as [o|]; simpl.
    + case_bool_decide; simpl; [eauto|].
      destruct (validate_date_args o); simpl; eauto.
    + eauto.
Qed.

(** C8, as the code has it.  For a validator that answers [True] or
    raises [ValueError] and never answers [False], construction of a
    [SimpleSlackConfig] raises [ValueError] (no object is returned) as
    soon as one supplied bound is not accepted, and returns the
    configuration with the fields as given when every supplied bound is
    accepted.  A bound that is [None] or the empty string is not
    validated: it counts as absent. *)
Theorem config_init_rejects_any_invalid
    (validate_date_args : string -> result bool)
    (channels : list string) (token : string) (oldest latest : option string)
    (verbose : bool) :
  (forall s, validate_date_args s = Ok true
             \/ validate_date_args s = Raise ValueError) ->
  SimpleSlackConfig.__init__ validate_date_args channels token oldest latest
    verbose
  = if supplied_invalid validate_date_args oldest
       || supplied_invalid validate_date_args latest
    then Raise ValueError
    else Ok (SimpleSlackConfig.mk channels token oldest latest verbose).
Proof.
  intros contract.
  unfold SimpleSlackConfig.__init__, SimpleSlackConfig.__post_init__,
    SimpleSlackConfig.validate_inputs, supplied_invalid; simpl.
  destruct oldest as [o|], latest as [l|]; simpl;
    repeat case_bool_decide; simpl;
    repeat match goal with
           | |- context [validate_date_args ?x] =>
               destruct (contract x) as [-> | ->]; simpl
           end; reflexivity.
Qed.

Lemma config_init_rejects_any_invalid_witness :
  (forall s, validate_date_args_ascii s = Ok true
             \/ validate_date_args_ascii s = Raise ValueError)
  /\ SimpleSlackConfig.__init__ validate_date_args_ascii ["C01"; "C02"]
       "xoxb-1" (Some "2023-01-01") (Some "") true
     = Ok (SimpleSlackConfig.mk ["C01"; "C02"] "xoxb-1" (Some "2023-01-01")
             (Some "") true)
  /\ SimpleSlackConfig.__init__ validate_date_args_ascii ["C01"] "xoxb-1"
       None (Some "31/12/2023") false
     = Raise ValueError.
Proof.
  assert (contract : forall s, validate_date_args_ascii s = Ok true
                               \/ validate_date_args_ascii s = Raise ValueError).
  { intros s. unfold validate_date_args_ascii.
    destruct (parses_ascii s); [left | right]; reflexivity. }
  split; [exact contract|].
  split.
  - exact (config_init_rejects_any_invalid validate_date_args_ascii
             ["C01"; "C02"] "xoxb-1" (Some "2023-01-01") (Some "") true
             contract).
  - exact (config_init_rejects_any_invalid validate_date_args_ascii
             ["C01"] "xoxb-1" None (Some "31/12/2023") false contract).
Defined.

(** C8, as stated, fails.  With an unparseable [oldest] and a parseable
    [latest] the claim has the construction succeed; the validator raises
    on [oldest] and the construction ends with its [ValueError]. *)
Example config_one_parseable_rejected :
  validate_date_args_ascii "2023-12-31T08:00:00" = Ok true
  /\ validate_date_args_ascii "last week" = Raise ValueError
  /\ SimpleSlackConfig.__init__ validate_date_args_ascii ["C01"] "xoxb-1"
       (Some "last week") (Some "2023-12-31T08:00:00") false
     = Raise ValueError.
Proof. repeat split; vm_compute; reflexivity. Qed.

Section ConnectorFacts.

Context (strptime : string -> string -> result datetime)
        (timestamp : datetime -> result Q)
        (fromtimestamp : Q -> result datetime).

Local Abbreviation convert_datetime :=
  (SlackIngestDoc.convert_datetime strptime timestamp).
Local Abbreviation bound := (SlackIngestDoc.bound strptime timestamp).
Local Abbreviation history_call :=
  (SlackIngestDoc.history_call strptime timestamp).
Local Abbreviation _fetch_messages :=
  (SlackIngestDoc._fetch_messages strptime timestamp).
Local Abbreviation file_meta_of := (SlackIngestDoc.file_meta_of fromtimestamp).
Local Abbreviation get_file_metadata :=
  (SlackIngestDoc.get_file_metadata strptime timestamp fromtimestamp).
Local Abbreviation exists_ :=
  (SlackIngestDoc.exists_ strptime timestamp fromtimestamp).
Local Abbreviation get_file :=
  (SlackIngestDoc.get_file strptime timestamp fromtimestamp).

(** C9.  On the empty list of messages [get_file_metadata] raises
    [UnboundLocalError] ([created] is read before any assignment): it
    returns nothing and stores no metadata, the document is unchanged. *)
Theorem get_file_metadata_empty (d : SlackIngestDoc.t) (w : World) :
  get_file_metadata (Some []) (d, w) = (Raise UnboundLocalError, (d, w)).
Proof. reflexivity. Qed.

(** What [_fetch_messages] answers and records once the two bounds are
    converted: the answer of the service to the history call, and that
    call after the ones made before. *)
Lemma fetch_messages_call (d : SlackIngestDoc.t) (w : World) (o l : PyVal) :
  bound (SlackIngestDoc.oldest d) = Ok o ->
  bound (SlackIngestDoc.latest d) = Ok l ->
  fst (_fetch_messages (d, w))
  = api w (calls w) (conversations_history (SlackIngestDoc.channel d) o l)
  /\ calls (snd (snd (_fetch_messages (d, w))))
     = (calls w ++ [conversations_history (SlackIngestDoc.channel d) o l])%list.
Proof.
  intros Ho Hl.
  unfold SlackIngestDoc._fetch_messages, SlackIngestDoc.history_call.
  cbn [SlackIngestDoc.set_client SlackIngestDoc.oldest SlackIngestDoc.latest
       SlackIngestDoc.channel].
  rewrite Ho, Hl. unfold call_api.
  destruct (api w (calls w) _) as [response|[]]; split; reflexivity.
Qed.

(** C10.  A non-empty string that [strptime] rejects under each of the
    accepted formats is converted to [None], without an error, and
    [_fetch_messages] passes that [None] on as the bound of the history
    call, be it the [oldest] or the [latest] bound of the document: the
    fetch answers what the service answers to the call with [None], and
    that call is the one recorded. *)
Theorem convert_datetime_unparseable (s : string) :
  (forall format, format ∈ DATE_FORMATS ->
     strptime s format = Raise ValueError) ->
  convert_datetime s = Ok VNone
  /\ (s <> "" ->
      bound (Some s) = Ok VNone
      /\ (forall d w l,
            SlackIngestDoc.oldest d = Some s ->
            bound (SlackIngestDoc.latest d) = Ok l ->
            history_call d w
            = call_api
                (conversations_history (SlackIngestDoc.channel d) VNone l) w)
      /\ (forall d w o,
            SlackIngestDoc.latest d = Some s ->
            bound (SlackIngestDoc.oldest d) = Ok o ->
            history_call d w
            = call_api
                (conversations_history (SlackIngestDoc.channel d) o VNone) w)
      /\ (forall d w l,
            SlackIngestDoc.oldest d = Some s ->
            bound (SlackIngestDoc.latest d) = Ok l ->
            fst (_fetch_messages (d, w))
            = api w (calls w)
                (conversations_history (SlackIngestDoc.channel d) VNone l)
            /\ calls (snd (snd (_fetch_messages (d, w))))
               = (calls w
                  ++ [conversations_history (SlackIngestDoc.channel d)
                        VNone l])%list)
      /\ (forall d w o,
            SlackIngestDoc.latest d = Some s ->
            bound (SlackIngestDoc.oldest d) = Ok o ->
            fst (_fetch_messages (d, w))
            = api w (calls w)
                (conversations_history (SlackIngestDoc.channel d) o VNone)
            /\ calls (snd (snd (_fetch_messages (d, w))))
               = (calls w
                  ++ [conversations_history (SlackIngestDoc.channel d)
                        o VNone])%list)).
Proof.
  intros Hfail.
  assert (Hconv : convert_datetime s = Ok VNone).
  { unfold SlackIngestDoc.convert_datetime, DATE_FORMATS. simpl.
    rewrite !Hfail by (unfold DATE_FORMATS; set_solver). reflexivity. }
  split; [exact Hconv|]. intros Hne.
  assert (Hbound : bound (Some s) = Ok VNone).
  { unfold SlackIngestDoc.bound. rewrite bool_decide_eq_false_2 by exact Hne.
    exact Hconv. }
  split; [exact Hbound|].
  split; [|split; [|split]].
  - intros d w l Hold Hl. unfold SlackIngestDoc.history_call.
    rewrite Hold, Hbound, Hl. reflexivity.
  - intros d w o Hlat Ho. unfold SlackIngestDoc.history_call.
    rewrite Hlat, Hbound, Ho. reflexivity.
  - intros d w l Hold Hl. apply fetch_messages_call; [|exact Hl].
    rewrite Hold. exact Hbound.
  - intros d w o Hlat Ho. apply fetch_messages_call; [exact Ho|].
    rewrite Hlat. exact Hbound.
Qed.

Lemma history_call_ok (d : SlackIngestDoc.t) (w w' : World)
    (response : SlackResponse) :
  history_call d w = (Ok response, w') ->
  exists o l,
    w' = snd (call_api
                (conversations_history (SlackIngestDoc.channel d) o l) w).
Proof.
  unfold SlackIngestDoc.history_call.
  destruct (bound (SlackIngestDoc.oldest d)) as [o|e]; [|discriminate].
  destruct (bound (SlackIngestDoc.latest d)) as [l|e]; [|discriminate].
  intros H. exists o, l. rewrite H. reflexivity.
Qed.

(** X24.  What a read of [exists] does, state by state.  When
    [file_exists] is [None] the read runs the metadata probe: whenever
    the read answers, the answer is [True], the metadata is populated and
    exactly one history call was made, and a second read answers the
    same without touching the document or the service; when the probe
    raises, no metadata is stored.  When [file_exists] is already known,
    the read answers it and makes no call. *)
Lemma exists_probes_when_unknown (d : SlackIngestDoc.t) (w : World) :
  match SlackIngestDoc.file_exists d with
  | None =>
      match exists_ (d, w) with
      | (Ok answer, (d', w')) =>
          answer = Some true
          /\ is_Some (SlackIngestDoc.file_meta d')
          /\ (exists o l,
                calls w'
                = (calls w
                   ++ [conversations_history (SlackIngestDoc.channel d) o l])%list)
          /\ exists_ (d', w') = (Ok answer, (d', w'))
      | (Raise _, (d', _)) =>
          SlackIngestDoc.file_meta d' = SlackIngestDoc.file_meta d
      end
  | Some b => exists_ (d, w) = (Ok (Some b), (d, w))
  end.
Proof.
  destruct (SlackIngestDoc.file_exists d) as [b|] eqn:Hfe.
  - unfold SlackIngestDoc.exists_. simpl. rewrite Hfe. reflexivity.
  - unfold SlackIngestDoc.exists_. simpl. rewrite Hfe.
    unfold SlackIngestDoc.get_file_metadata, SlackIngestDoc._fetch_messages.
    destruct (history_call _ w) as [[response|e] w1] eqn:Hcall.
    + simpl.
      destruct (file_meta_of (pages response)) as [meta|e] eqn:Hmeta; simpl.
      * split; [reflexivity|]. split; [eexists; reflexivity|].
        split.
        -- apply history_call_ok in Hcall as (o & l & ->).
           exists o, l. reflexivity.
        -- reflexivity.
      * reflexivity.
    + destruct e; simpl; reflexivity.
Qed.

Lemma replies_loop_spins_on_errors (fuel : nat) :
  forall (d : SlackIngestDoc.t) (m : message) (text_elem : option string)
         (cursor : PyVal) (w : World),
    is_Some (ts m) ->
    (forall past c, is_replies_call c = true ->
       api w past c = Raise SlackApiError) ->
    SlackIngestDoc.replies_loop fuel d m text_elem cursor w = None.
Proof.
  induction fuel as [|fuel IH]; intros d m text_elem cursor w [v Hts] Hdown.
  - reflexivity.
  - simpl. rewrite Hts. rewrite Hdown by reflexivity.
    apply IH; [eexists; exact Hts | exact Hdown].
Qed.

(** C6, as the code has it.  When no file is staged and the history call
    of the fetch is answered with a [SlackApiError], [get_file] raises
    that error, leaves [file_exists] at [False], stores no metadata and
    writes no file: the staging path stays empty. *)
Theorem get_file_history_error (fuel : nat) (d : SlackIngestDoc.t)
    (w : World) (o l : PyVal) :
  files w !! SlackIngestDoc.filename d = None ->
  bound (SlackIngestDoc.oldest d) = Ok o ->
  bound (SlackIngestDoc.latest d) = Ok l ->
  api w (calls w) (conversations_history (SlackIngestDoc.channel d) o l)
  = Raise SlackApiError ->
  exists d' w',
    get_file fuel (d, w) = Some (Raise SlackApiError, (d', w'))
    /\ SlackIngestDoc.file_exists d' = Some false
    /\ SlackIngestDoc.file_meta d' = SlackIngestDoc.file_meta d
    /\ SlackIngestDoc.filename d' = SlackIngestDoc.filename d
    /\ files w' = files w
    /\ files w' !! SlackIngestDoc.filename d' = None
    /\ calls w'
       = (calls w
          ++ [conversations_history (SlackIngestDoc.channel d) o l])%list.
Proof.
  intros Hnone Ho Hl Herr.
  unfold SlackIngestDoc.get_file, SlackIngestDoc.skip_if_file_exists.
  simpl. rewrite bool_decide_eq_false_2
    by (rewrite Hnone; intros [? ?]; discriminate).
  unfold SlackIngestDoc.get_file_body, SlackIngestDoc._fetch_messages,
    SlackIngestDoc.history_call.
  simpl. rewrite Ho, Hl. unfold call_api.
  destruct (SimpleSlackConfig.verbose (SlackIngestDoc.config d));
    simpl; rewrite Herr; simpl;
    (eexists; eexists; split; [reflexivity|]);
    simpl; repeat split; try reflexivity; exact Hnone.
Qed.

(** X23.  A channel with no messages: the fetch marks the document as
    existing, then fails in [get_file_metadata] with [UnboundLocalError]
    and stages no file. *)
Lemma get_file_no_messages (fuel : nat) (d : SlackIngestDoc.t) (w : World)
    (o l : PyVal) (response : SlackResponse) :
  files w !! SlackIngestDoc.filename d = None ->
  bound (SlackIngestDoc.oldest d) = Ok o ->
  bound (SlackIngestDoc.latest d) = Ok l ->
  api w (calls w) (conversations_history (SlackIngestDoc.channel d) o l)
  = Ok response ->
  messages response = [] ->
  exists d' w',
    get_file fuel (d, w) = Some (Raise UnboundLocalError, (d', w'))
    /\ SlackIngestDoc.file_exists d' = Some true
    /\ SlackIngestDoc.file_meta d' = SlackIngestDoc.file_meta d
    /\ files w' = files w.
Proof.
  intros Hnone Ho Hl Hok Hempty.
  unfold SlackIngestDoc.get_file, SlackIngestDoc.skip_if_file_exists.
  simpl. rewrite bool_decide_eq_false_2
    by (rewrite Hnone; intros [? ?]; discriminate).
  unfold SlackIngestDoc.get_file_body, SlackIngestDoc._fetch_messages,
    SlackIngestDoc.history_call.
  simpl. rewrite Ho, Hl. unfold call_api.
  destruct (SimpleSlackConfig.verbose (SlackIngestDoc.config d));
    simpl; rewrite Hok, Hempty; simpl;
    (eexists; eexists; split; [reflexivity|]);
    simpl; repeat split; reflexivity.
Qed.

(** *** Which errors of the service reach the caller *)

Lemma add_replies_raises (rs : list message) :
  forall text_elem e,
    SlackIngestDoc.add_replies text_elem rs = Raise e -> e = TypeError.
Proof.
  induction rs as [|r rest IH]; intros text_elem e; simpl; [discriminate|].
  destruct (text r); [apply IH | congruence].
Qed.

Lemma replies_loop_raises (fuel : nat) :
  forall d m text_elem cursor w e w',
    SlackIngestDoc.replies_loop fuel d m text_elem cursor w
    = Some (Raise e, w') ->
    e <> SlackApiError.
Proof.
  induction fuel as [|fuel IH]; intros d m text_elem cursor w e w';
    simpl; [discriminate|].
  destruct (ts m) as [v|]; [|intros [= <- _]; discriminate].
  destruct (api w (calls w) _) as [response|e0].
  - destruct (SlackIngestDoc.add_replies _ _) as [t'|e1] eqn:Hadd.
    + destruct (has_more response); simpl; [apply IH | discriminate].
    + intros [= <- _]. apply add_replies_raises in Hadd. congruence.
  - destruct e0; try (intros [= <- _]; discriminate). apply IH.
Qed.

Lemma message_loop_raises (fuel : nat) (d : SlackIngestDoc.t)
    (ms : list message) :
  forall w e w',
    SlackIngestDoc.message_loop fuel d ms w = Some (Raise e, w') ->
    e <> SlackApiError.
Proof.
  induction ms as [|m rest IH]; intros w e w'; simpl; [discriminate|].
  destruct (SlackIngestDoc.replies_loop _ _ _ _ _ _)
    as [[[t|e1] w1]|] eqn:Hloop; [| |discriminate].
  - destruct (SlackIngestDoc.message_loop _ _ _ _)
      as [[[texts|e2] w2]|] eqn:Hrest; try discriminate.
    intros [= <- _]. eapply IH, Hrest.
  - intros [= <- _]. eapply replies_loop_raises, Hloop.
Qed.

Lemma file_meta_of_raises (ms : list message) :
  (forall q, fromtimestamp q <> Raise SlackApiError) ->
  file_meta_of ms <> Raise SlackApiError.
Proof.
  intros Hlib. unfold SlackIngestDoc.file_meta_of.
  assert (Hts : forall l, SlackIngestDoc.timestamps_of l <> Raise SlackApiError).
  { induction l as [|m l IH]; simpl; [discriminate|].
    destruct (ts m); [|discriminate].
    destruct (SlackIngestDoc.timestamps_of l) as [vs|e]; simpl;
      [discriminate | exact IH]. }
  assert (Hins : forall x l, py_insert x l <> Raise SlackApiError).
  { intros x l. induction l as [|y l IH]; simpl; [discriminate|].
    destruct (py_lt y x) as [[|]|e] eqn:Hlt; simpl.
    - destruct (py_insert x l); simpl; [discriminate | exact IH].
    - discriminate.
    - destruct y, x; simpl in Hlt; congruence. }
  assert (Hsort : forall l, py_sort l <> Raise SlackApiError).
  { induction l as [|x l IH]; simpl; [discriminate|].
    destruct (py_sort l); simpl; [apply Hins | exact IH]. }
  assert (Hfloat : forall v, py_float v <> Raise SlackApiError).
  { intros [| | |str]; simpl; try discriminate.
    unfold float_of_str.
    repeat match goal with
           | |- context [match ?x with _ => _ end] => destruct x
           end; discriminate. }
  destruct (SlackIngestDoc.timestamps_of ms) as [vs|e] eqn:E1; simpl;
    [|intros [= ->]; exact (Hts _ E1)].
  destruct (py_sort vs) as [[|first rest]|e] eqn:E2; simpl;
    [discriminate | | intros [= ->]; exact (Hsort _ E2)].
  destruct (py_float first) as [lo|e] eqn:E3; simpl;
    [|intros [= ->]; exact (Hfloat _ E3)].
  destruct (fromtimestamp lo) as [created|e] eqn:E4; simpl;
    [|intros [= ->]; exact (Hlib _ E4)].
  match goal with
  | |- context [py_float ?v] => destruct (py_float v) as [hi|e] eqn:E5
  end; simpl; [|intros [= ->]; exact (Hfloat _ E5)].
  destruct (fromtimestamp hi) as [modified|e] eqn:E6; simpl;
    [discriminate | intros [= ->]; exact (Hlib _ E6)].
Qed.

Lemma bound_raises (field : option string) :
  (forall s format, strptime s format <> Raise SlackApiError) ->
  (forall x, timestamp x <> Raise SlackApiError) ->
  bound field <> Raise SlackApiError.
Proof.
  intros Hparse Hstamp. unfold SlackIngestDoc.bound.
  destruct field as [s|]; [|discriminate].
  case_bool_decide; [discriminate|].
  unfold SlackIngestDoc.convert_datetime.
  induction DATE_FORMATS as [|format rest IH]; simpl; [discriminate|].
  destruct (strptime s format) as [x|e] eqn:E1; simpl.
  - destruct (timestamp x) as [q|e] eqn:E2; [discriminate|].
    destruct e; try discriminate; [exact IH|].
    exfalso. eapply Hstamp, E2.
  - destruct e; try discriminate; [exact IH|].
    exfalso. eapply Hparse, E1.
Qed.

(** X22.  The only [SlackApiError] that [get_file] lets through is that
    of the history call, and it leaves [file_exists] at [False]: an
    error of a call for replies never reaches the caller. *)
Lemma get_file_api_error_is_history_error (fuel : nat)
    (d d' : SlackIngestDoc.t) (w w' : World) :
  (forall s format, strptime s format <> Raise SlackApiError) ->
  (forall x, timestamp x <> Raise SlackApiError) ->
  (forall q, fromtimestamp q <> Raise SlackApiError) ->
  get_file fuel (d, w) = Some (Raise SlackApiError, (d', w')) ->
  exists o l,
    bound (SlackIngestDoc.oldest d) = Ok o
    /\ bound (SlackIngestDoc.latest d) = Ok l
    /\ api w (calls w) (conversations_history (SlackIngestDoc.channel d) o l)
       = Raise SlackApiError
    /\ SlackIngestDoc.file_exists d' = Some false.
Proof.
  intros Hparse Hstamp Hfrom.
  unfold SlackIngestDoc.get_file, SlackIngestDoc.skip_if_file_exists.
  case_bool_decide; [discriminate|].
  unfold SlackIngestDoc.get_file_body, SlackIngestDoc._fetch_messages,
    SlackIngestDoc.history_call.
  cbn [fst snd SlackIngestDoc.set_client SlackIngestDoc.oldest
       SlackIngestDoc.latest SlackIngestDoc.channel].
  pose proof (bound_raises (SlackIngestDoc.oldest d) Hparse Hstamp) as Ho.
  pose proof (bound_raises (SlackIngestDoc.latest d) Hparse Hstamp) as Hl.
  destruct (bound (SlackIngestDoc.oldest d)) as [o|e1].
  2:{ destruct e1; try (intros [= ]; fail); congruence. }
  destruct (bound (SlackIngestDoc.latest d)) as [l|e2].
  2:{ destruct e2; try (intros [= ]; fail); congruence. }
  unfold call_api.
  match goal with
  | |- context [api ?w0 ?past ?c] =>
      destruct (api w0 past c) as [response|e] eqn:Hapi
  end.
  - match goal with
    | |- context [SlackIngestDoc.message_loop ?f ?s ?ms ?w0] =>
        destruct (SlackIngestDoc.message_loop f s ms w0)
          as [[[root|e] w1]|] eqn:Hloop
    end; [| |discriminate].
    + unfold SlackIngestDoc.get_file_metadata.
      pose proof (file_meta_of_raises (messages response) Hfrom) as Hmeta.
      cbn [rbind].
      destruct (file_meta_of (messages response)) as [meta|e];
        [discriminate|].
      intros [= -> _ _]. congruence.
    + intros [= -> _ _]. exfalso.
      eapply message_loop_raises; [exact Hloop | reflexivity].
  - destruct e; try (intros [= ]; fail).
    intros [= <- _]. exists o, l.
    repeat split; try reflexivity.
    destruct (SimpleSlackConfig.verbose (SlackIngestDoc.config d));
      exact Hapi.
Qed.

End ConnectorFacts.

Lemma convert_datetime_unparseable_witness :
  SlackIngestDoc.convert_datetime strptime_ascii timestamp_utc "last week"
  = Ok VNone
  /\ ("last week" <> "" ->
      SlackIngestDoc.bound strptime_ascii timestamp_utc (Some "last week")
      = Ok VNone
      /\ (forall d w l,
            SlackIngestDoc.oldest d = Some "last week" ->
            SlackIngestDoc.bound strptime_ascii timestamp_utc
              (SlackIngestDoc.latest d) = Ok l ->
            SlackIngestDoc.history_call strptime_ascii timestamp_utc d w
            = call_api
                (conversations_history (SlackIngestDoc.channel d) VNone l) w)
      /\ (forall d w o,
            SlackIngestDoc.latest d = Some "last week" ->
            SlackIngestDoc.bound strptime_ascii timestamp_utc
              (SlackIngestDoc.oldest d) = Ok o ->
            SlackIngestDoc.history_call strptime_ascii timestamp_utc d w
            = call_api
                (conversations_history (SlackIngestDoc.channel d) o VNone) w)
      /\ (forall d w l,
            SlackIngestDoc.oldest d = Some "last week" ->
            SlackIngestDoc.bound strptime_ascii timestamp_utc
              (SlackIngestDoc.latest d) = Ok l ->
            fst (SlackIngestDoc._fetch_messages strptime_ascii timestamp_utc
                   (d, w))
            = api w (calls w)
                (conversations_history (SlackIngestDoc.channel d) VNone l)
            /\ calls (snd (snd (SlackIngestDoc._fetch_messages strptime_ascii
                                  timestamp_utc (d, w))))
               = (calls w
                  ++ [conversations_history (SlackIngestDoc.channel d)
                        VNone l])%list)
      /\ (forall d w o,
            SlackIngestDoc.latest d = Some "last week" ->
            SlackIngestDoc.bound strptime_ascii timestamp_utc
              (SlackIngestDoc.oldest d) = Ok o ->
            fst (SlackIngestDoc._fetch_messages strptime_ascii timestamp_utc
                   (d, w))
            = api w (calls w)
                (conversations_history (SlackIngestDoc.channel d) o VNone)
            /\ calls (snd (snd (SlackIngestDoc._fetch_messages strptime_ascii
                                  timestamp_utc (d, w))))
               = (calls w
                  ++ [conversations_history (SlackIngestDoc.channel d)
                        o VNone])%list)).
Proof.
  apply (convert_datetime_unparseable strptime_ascii timestamp_utc "last week").
  intros format Hin. unfold DATE_FORMATS in Hin.
  repeat (apply elem_of_cons in Hin as [-> | Hin]; [reflexivity|]).
  apply elem_of_nil in Hin. destruct Hin.
Defined.

Lemma get_file_history_error_witness :
  exists d' w',
    SlackIngestDoc.get_file strptime_ascii timestamp_utc fromtimestamp_utc 1
      (fresh_doc, quiet_world down_service)
    = Some (Raise SlackApiError, (d', w'))
    /\ SlackIngestDoc.file_exists d' = Some false
    /\ SlackIngestDoc.file_meta d' = SlackIngestDoc.file_meta fresh_doc
    /\ SlackIngestDoc.filename d' = SlackIngestDoc.filename fresh_doc
    /\ files w' = files (quiet_world down_service)
    /\ files w' !! SlackIngestDoc.filename d' = None
    /\ calls w'
       = (calls (quiet_world down_service)
          ++ [conversations_history (SlackIngestDoc.channel fresh_doc)
                (VStr "0") (VStr "0")])%list.
Proof.
  apply (get_file_history_error strptime_ascii timestamp_utc fromtimestamp_utc
           1 fresh_doc (quiet_world down_service) (VStr "0") (VStr "0")).
  - apply lookup_empty.
  - reflexivity.
  - reflexivity.
  - reflexivity.
Defined.

(** C6, as stated, fails.  The service answers the first call for
    replies with a [SlackApiError]; [get_file] prints it, asks again and
    returns normally: no error reaches the caller, [file_exists] is
    [True] and the file is staged. *)
Lemma replies_error_not_surfaced :
  match SlackIngestDoc.get_file strptime_ascii timestamp_utc fromtimestamp_utc
          2 (fresh_doc, quiet_world flaky_service) with
  | Some (Ok _, (d', w')) =>
      flaky_service
        [conversations_history "C01" (VStr "0") (VStr "0")]
        (conversations_replies "C01" (VStr "100") VNone)
      = Raise SlackApiError
      /\ calls w'
         = [ conversations_history "C01" (VStr "0") (VStr "0");
             conversations_replies "C01" (VStr "100") VNone;
             conversations_replies "C01" (VStr "100") VNone ]
      /\ output w' = ["Error retrieving replies"]
      /\ SlackIngestDoc.file_exists d' = Some true
      /\ files w' !! SlackIngestDoc.filename d'
         = Some [Some "hi <reply> hi"]
  | _ => False
  end.
Proof. vm_compute. repeat split; reflexivity. Qed.

(** While the service keeps failing the calls for replies, the fetch
    never returns, whatever the fuel. *)
Lemma get_file_spins_when_replies_fail (fuel : nat) :
  SlackIngestDoc.get_file strptime_ascii timestamp_utc fromtimestamp_utc
    fuel (fresh_doc, quiet_world no_replies_service) = None.
Proof.
  unfold SlackIngestDoc.get_file, SlackIngestDoc.skip_if_file_exists.
  rewrite bool_decide_eq_false_2
    by (intros [? Hsome]; vm_compute in Hsome; discriminate).
  unfold SlackIngestDoc.get_file_body, SlackIngestDoc._fetch_messages.
  cbn [fresh_doc quiet_world SlackIngestDoc.new SlackIngestDoc.config
       slack_config SimpleSlackConfig.verbose].
  change (SlackIngestDoc.history_call strptime_ascii timestamp_utc _ _)
    with (call_api (conversations_history "C01" (VStr "0") (VStr "0"))
            (SlackIngestDoc._create_full_tmp_dir_path
               (SlackIngestDoc.set_client (Some "xoxb-1") fresh_doc)
               (quiet_world no_replies_service))).
  cbn [call_api api quiet_world SlackIngestDoc._create_full_tmp_dir_path
       mkdir no_replies_service is_replies_call messages
       SlackIngestDoc.message_loop].
  rewrite replies_loop_spins_on_errors; [reflexivity | eexists; reflexivity |].
  intros past c Hc. cbn [api]. unfold no_replies_service.
  rewrite Hc. reflexivity.
Qed.

Example exists_unknown_doc_probes :
  SlackIngestDoc.exists_ strptime_ascii timestamp_utc fromtimestamp_utc
    (unknown_doc, quiet_world (steady_service three_messages))
  = (Ok (Some true),
     (SlackIngestDoc.set_file_meta
        (Some (SlackFileMeta.mk "1970-01-01T00:01:40" "1970-01-01T00:08:20"))
        (SlackIngestDoc.set_file_exists (Some true)
           (SlackIngestDoc.set_client (Some "xoxb-1") unknown_doc)),
      mk_world (steady_service three_messages)
        [conversations_history "C01" (VStr "0") (VStr "0")] ∅ ∅ [])).
Proof. reflexivity. Qed.

(** C2 (the code departs from it).  Two documents on which no fetch and
    no probe has run.  The document the connector builds starts with
    [file_exists = False], not [None]: its first read of [exists] answers
    [False], makes no call and leaves the metadata empty.  The document
    whose [file_exists] is [None] does run the probe, but the probe
    iterates over the response itself, not over its messages: with a
    response that yields its page, [float] is given [None], the read
    raises [TypeError] and the metadata stays empty. *)
Theorem exists_without_metadata :
  SlackIngestDoc.file_exists fresh_doc = Some false
  /\ (forall w,
        SlackIngestDoc.exists_ strptime_ascii timestamp_utc fromtimestamp_utc
          (fresh_doc, w)
        = (Ok (Some false), (fresh_doc, w)))
  /\ SlackIngestDoc.file_meta fresh_doc = None
  /\ SlackIngestDoc.file_exists unknown_doc = None
  /\ SlackIngestDoc.exists_ strptime_ascii timestamp_utc fromtimestamp_utc
       (unknown_doc, quiet_world (paged_service three_messages))
     = (Raise TypeError,
        (SlackIngestDoc.set_file_exists (Some true)
           (SlackIngestDoc.set_client (Some "xoxb-1") unknown_doc),
         mk_world (paged_service three_messages)
           [conversations_history "C01" (VStr "0") (VStr "0")] ∅ ∅ []))
  /\ SlackIngestDoc.file_meta
       (SlackIngestDoc.set_file_exists (Some true)
          (SlackIngestDoc.set_client (Some "xoxb-1") unknown_doc))
     = None.
Proof. repeat split; reflexivity. Qed.

(** X25.  The documents the connector builds have [file_exists = False]:
    their state is known, and [exists] answers [False] without a probe,
    leaving the document and the service untouched. *)
Lemma exists_ingest_doc_no_probe (standard_config : StandardConnectorConfig)
    (config : SimpleSlackConfig.t) (d : SlackIngestDoc.t) (w : World) :
  d ∈ SlackConnector.get_ingest_docs standard_config config ->
  SlackIngestDoc.exists_ strptime_ascii timestamp_utc fromtimestamp_utc (d, w)
  = (Ok (Some false), (d, w)).
Proof.
  unfold SlackConnector.get_ingest_docs. intros Hin.
  apply list_elem_of_fmap in Hin as (channel & -> & _). reflexivity.
Qed.

(** *** Sorting integer timestamps *)

Lemma py_insert_ints (x : Z) (l : list Z) :
  py_insert (VInt x) (map VInt l) = Ok (map VInt (insert_int x l)).
Proof.
  induction l as [|y rest IH]; simpl; [reflexivity|].
  destruct (y <? x); simpl; [|reflexivity].
  rewrite IH. reflexivity.
Qed.

Lemma py_sort_ints (l : list Z) :
  py_sort (map VInt l) = Ok (map VInt (sort_ints l)).
Proof.
  induction l as [|x rest IH]; simpl; [reflexivity|].
  rewrite IH. simpl. apply py_insert_ints.
Qed.

Lemma insert_int_perm (x : Z) (l : list Z) : insert_int x l ≡ₚ x :: l.
Proof.
  induction l as [|y rest IH]; simpl; [reflexivity|].
  destruct (y <? x); [|reflexivity].
  rewrite IH. apply Permutation_swap.
Qed.

Lemma sort_ints_perm (l : list Z) : sort_ints l ≡ₚ l.
Proof.
  induction l as [|x rest IH]; simpl; [reflexivity|].
  rewrite insert_int_perm, IH. reflexivity.
Qed.

Lemma insert_int_sorted (x : Z) (l : list Z) :
  StronglySorted Z.le l -> StronglySorted Z.le (insert_int x l).
Proof.
  induction l as [|y rest IH]; intros Hs; simpl.
  - repeat constructor.
  - apply StronglySorted_inv in Hs as [Hrest Hall].
    destruct (Z.ltb_spec y x) as [Hlt|Hge].
    + constructor; [apply IH, Hrest|].
      rewrite insert_int_perm. constructor; [lia | exact Hall].
    + constructor; [constructor; assumption|].
      constructor; [exact Hge|].
      eapply Forall_impl; [exact Hall | intros z Hz; simpl in Hz; lia].
Qed.

Lemma sort_ints_sorted (l : list Z) : StronglySorted Z.le (sort_ints l).
Proof.
  induction l as [|x rest IH]; simpl; [constructor|].
  apply insert_int_sorted, IH.
Qed.

Lemma sorted_last_greatest (l : list Z) :
  StronglySorted Z.le l ->
  forall d z, z ∈ l -> z <= List.last l d.
Proof.
  induction 1 as [|a l Hs IH Hall]; intros d z Hz.
  - apply elem_of_nil in Hz. destruct Hz.
  - destruct l as [|b l'].
    + apply list_elem_of_singleton in Hz. subst. simpl. lia.
    + change (List.last (a :: b :: l') d) with (List.last (b :: l') d).
      apply elem_of_cons in Hz as [-> | Hz].
      * apply Forall_cons in Hall as [Hab _].
        etransitivity; [exact Hab|]. apply IH. left.
      * apply IH, Hz.
Qed.

Lemma last_map_VInt (l : list Z) (d : Z) :
  List.last (map VInt l) (VInt d) = VInt (List.last l d).
Proof.
  induction l as [|a l IH]; [reflexivity|].
  destruct l as [|b l']; [reflexivity|]. exact IH.
Qed.

Lemma timestamps_of_ints (ms : list message) :
  forall zs,
    map ts ms = map (fun z => Some (VInt z)) zs ->
    SlackIngestDoc.timestamps_of ms = Ok (map VInt zs).
Proof.
  induction ms as [|m rest IH]; intros [|z zs] Heq; simpl in *;
    try discriminate; [reflexivity|].
  injection Heq as Hm Hrest. rewrite Hm, (IH zs Hrest). reflexivity.
Qed.

Section MetadataFacts.

Context (fromtimestamp : Q -> result datetime).

Local Abbreviation file_meta_of := (SlackIngestDoc.file_meta_of fromtimestamp).

(** The scenario of the spec: with the timestamps 100, 500 and 250 the
    window runs from 100 to 500, in whichever order the messages come. *)
Example file_meta_three_messages :
  Forall (fun ms =>
            file_meta_of ms
            = (let! created := fromtimestamp (inject_Z 100) in
               let! modified := fromtimestamp (inject_Z 500) in
               Ok (SlackFileMeta.mk (isoformat created) (isoformat modified))))
         (permutations three_messages).
Proof.
  assert (Hp : permutations three_messages
               = [ [msg "100" "a"; msg "500" "b"; msg "250" "c"];
                   [msg "500" "b"; msg "100" "a"; msg "250" "c"];
                   [msg "500" "b"; msg "250" "c"; msg "100" "a"];
                   [msg "100" "a"; msg "250" "c"; msg "500" "b"];
                   [msg "250" "c"; msg "100" "a"; msg "500" "b"];
                   [msg "250" "c"; msg "500" "b"; msg "100" "a"] ])
    by (vm_compute; reflexivity).
  rewrite Hp. repeat (constructor; [reflexivity|]). constructor.
Qed.

(** C3 (the code departs from it).  The timestamps are sorted as they
    come, strings by code points, and converted to numbers afterwards:
    for "100", "500", "250" and "1000" the list sorts to
    "100", "1000", "250", "500", so [date_modified] is taken from 500
    although the latest message is the one at 1000. *)
Theorem file_meta_of_four_messages :
  SlackIngestDoc.timestamps_of four_messages
  = Ok [VStr "100"; VStr "500"; VStr "250"; VStr "1000"]
  /\ map py_float [VStr "100"; VStr "500"; VStr "250"; VStr "1000"]
     = [Ok (inject_Z 100); Ok (inject_Z 500); Ok (inject_Z 250);
        Ok (inject_Z 1000)]
  /\ py_sort [VStr "100"; VStr "500"; VStr "250"; VStr "1000"]
     = Ok [VStr "100"; VStr "1000"; VStr "250"; VStr "500"]
  /\ file_meta_of four_messages
     = (let! created := fromtimestamp (inject_Z 100) in
        let! modified := fromtimestamp (inject_Z 500) in
        Ok (SlackFileMeta.mk (isoformat created) (isoformat modified))).
Proof. repeat split; reflexivity. Qed.

(** X21.  When every timestamp is an integer the window is the numeric
    one: [date_created] comes from the least timestamp and
    [date_modified] from the greatest, in whichever order the messages
    come. *)
Lemma file_meta_of_int_timestamps (ms : list message) (zs : list Z) :
  map ts ms = map (fun z => Some (VInt z)) zs ->
  zs <> [] ->
  exists lo hi,
    lo ∈ zs /\ hi ∈ zs /\ (forall z, z ∈ zs -> lo <= z <= hi)
    /\ file_meta_of ms
       = (let! created := fromtimestamp (inject_Z lo) in
          let! modified := fromtimestamp (inject_Z hi) in
          Ok (SlackFileMeta.mk (isoformat created) (isoformat modified))).
Proof.
  intros Hts Hne.
  pose proof (sort_ints_perm zs) as Hperm.
  pose proof (sort_ints_sorted zs) as Hsorted.
  destruct (sort_ints zs) as [|lo rest] eqn:Hsort.
  { apply Permutation_nil_l in Hperm. congruence. }
  exists lo, (List.last (lo :: rest) lo).
  assert (Hlast : List.last (lo :: rest) lo ∈ lo :: rest).
  { clear. generalize lo at 1 3. induction rest as [|b l IH]; intros a.
    - left.
    - right. apply (IH b). }
  split; [rewrite <- Hperm; left|].
  split; [rewrite <- Hperm; exact Hlast|].
  split.
  - intros z Hz. rewrite <- Hperm in Hz. split.
    + apply elem_of_cons in Hz as [-> | Hz]; [lia|].
      apply StronglySorted_inv in Hsorted as [_ Hall].
      rewrite Forall_forall in Hall. apply Hall, Hz.
    + apply sorted_last_greatest; assumption.
  - unfold SlackIngestDoc.file_meta_of.
    rewrite (timestamps_of_ints ms zs Hts). simpl.
    rewrite py_sort_ints, Hsort.
    change (map VInt (lo :: rest)) with (VInt lo :: map VInt rest).
    cbn [rbind py_float].
    change (VInt lo :: map VInt rest) with (map VInt (lo :: rest)).
    rewrite last_map_VInt. reflexivity.
Qed.

End MetadataFacts.

(** On a host in UTC: the window ends at 00:08:20 (500 seconds), not at
    00:16:40 (1000 seconds). *)
Example file_meta_four_messages_utc :
  SlackIngestDoc.file_meta_of fromtimestamp_utc four_messages
  = Ok (SlackFileMeta.mk "1970-01-01T00:01:40" "1970-01-01T00:08:20")
  /\ (let! latest := fromtimestamp_utc (inject_Z 1000) in Ok (isoformat latest))
     = Ok "1970-01-01T00:16:40".
Proof. split; reflexivity. Qed.

(** * Further properties of the email elements *)

(** X1.  With the globals of its module, [__eq__] never raises, also
    when a datestamp is missing on either side, and it is an equivalence:
    every element equals itself, the answer does not depend on the side
    an element stands on, and equality passes along a chain.  The [id],
    the datestamp and the page number play no part. *)
Theorem Name_eq_equivalence (a b c : Name.t) :
  is_ok (Name.__eq__ Name.module_globals a b) = true
  /\ Name.__eq__ Name.module_globals a a = Ok true
  /\ Name.__eq__ Name.module_globals a b = Name.__eq__ Name.module_globals b a
  /\ (Name.__eq__ Name.module_globals a b = Ok true ->
      Name.__eq__ Name.module_globals b c = Ok true ->
      Name.__eq__ Name.module_globals a c = Ok true)
  /\ (Name.name a = Name.name b -> Name.text a = Name.text b ->
      Name.__eq__ Name.module_globals a b = Ok true).
Proof.
  rewrite !Name_eq_name_text. split; [reflexivity|].
  split; [rewrite !bool_decide_eq_true_2 by reflexivity; reflexivity|].
  split.
  { f_equal. f_equal; apply bool_decide_ext; split; congruence. }
  split.
  - intros [= Hab] [= Hbc].
    apply andb_true_iff in Hab as [Hn1 Ht1].
    apply andb_true_iff in Hbc as [Hn2 Ht2].
    apply bool_decide_eq_true in Hn1, Ht1, Hn2, Ht2.
    rewrite !bool_decide_eq_true_2 by congruence. reflexivity.
  - intros Hn Ht. rewrite !bool_decide_eq_true_2 by assumption. reflexivity.
Qed.

(** X2.  Recomputing the id changes the [id] and nothing else: the
    element compares equal to the same elements as before, on either
    side, and prints the same. *)
Theorem id_to_hash_keeps_equality (i : Z) (a b : Name.t) :
  Name.__eq__ Name.module_globals (snd (Name.id_to_hash i a)) b
  = Name.__eq__ Name.module_globals a b
  /\ Name.__eq__ Name.module_globals b (snd (Name.id_to_hash i a))
     = Name.__eq__ Name.module_globals b a
  /\ Name.__str__ (snd (Name.id_to_hash i a)) = Name.__str__ a
  /\ Name.datestamp (snd (Name.id_to_hash i a)) = Name.datestamp a
  /\ Name.page_number (snd (Name.id_to_hash i a)) = Name.page_number a.
Proof. rewrite !Name_eq_name_text. repeat split; reflexivity. Qed.

Lemma run_cleaners_split (cleaners : list Name.cleaner) :
  forall t n vt vn,
    Name.run_cleaners cleaners t n = Ok (vt, vn) ->
    Name.pipeline cleaners t = Ok vt /\ Name.pipeline cleaners n = Ok vn.
Proof.
  induction cleaners as [|c rest IH]; intros t n vt vn; simpl.
  - intros [= -> ->]. split; reflexivity.
  - destruct (c t) as [t'|e]; simpl; [|discriminate].
    destruct (c n) as [n'|e]; simpl; [|discriminate].
    apply IH.
Qed.

Lemma run_cleaners_app (cs1 cs2 : list Name.cleaner) :
  forall t n,
    Name.run_cleaners (cs1 ++ cs2)%list t n
    = (let! (t1, n1) := Name.run_cleaners cs1 t n in
       Name.run_cleaners cs2 t1 n1).
Proof.
  induction cs1 as [|c rest IH]; intros t n; simpl; [reflexivity|].
  destruct (c t) as [t'|e]; simpl; [|reflexivity].
  destruct (c n) as [n'|e]; simpl; [|reflexivity].
  apply IH.
Qed.

(** X3.  [apply] returns normally exactly when the cleaners, run in
    order on [text] and on [name], both end on a string: a value of
    another type in between is accepted when a later cleaner turns it
    into a string again. *)
Theorem apply_succeeds_iff (self : Name.t) (cleaners : list Name.cleaner) :
  fst (Name.apply cleaners self) = Ok tt
  <-> exists t' n',
        Name.pipeline cleaners (VStr (Name.text self)) = Ok (VStr t')
        /\ Name.pipeline cleaners (VStr (Name.name self)) = Ok (VStr n').
Proof.
  unfold Name.apply. split.
  - destruct (Name.run_cleaners _ _ _) as [[vt vn]|e] eqn:Hrun;
      [|discriminate].
    apply run_cleaners_split in Hrun as [Ht Hn].
    destruct vt, vn; simpl; try discriminate.
    intros _. eauto.
  - intros (t' & n' & Ht & Hn).
    rewrite (run_cleaners_pipeline cleaners _ _ _ _ Ht Hn). reflexivity.
Qed.

Lemma apply_raise_keeps_element_witness :
  snd (Name.apply [len_cleaner; strip_cleaner] greeting) = greeting.
Proof.
  apply (apply_raise_keeps_element greeting [len_cleaner; strip_cleaner]
           TypeError).
  reflexivity.
Defined.

(** X5.  One call with the cleaners of two calls: when the first call
    succeeds, the single call has the outcome of the second call, and
    the same element when that outcome is a success.  When the second
    call raises, the single call has changed nothing, while the two
    calls have kept the work of the first. *)
Theorem apply_in_two_calls (self self1 : Name.t)
    (cs1 cs2 : list Name.cleaner) :
  Name.apply cs1 self = (Ok tt, self1) ->
  fst (Name.apply (cs1 ++ cs2)%list self) = fst (Name.apply cs2 self1)
  /\ (fst (Name.apply cs2 self1) = Ok tt ->
      Name.apply (cs1 ++ cs2)%list self = Name.apply cs2 self1)
  /\ (forall e, fst (Name.apply cs2 self1) = Raise e ->
      snd (Name.apply (cs1 ++ cs2)%list self) = self
      /\ snd (Name.apply cs2 self1) = self1).
Proof.
  unfold Name.apply at 1.
  destruct (Name.run_cleaners cs1 _ _) as [[vt vn]|e] eqn:Hrun;
    [|discriminate].
  destruct vt as [| | |t1]; try discriminate.
  destruct vn as [| | |n1]; try discriminate.
  intros [= <-].
  unfold Name.apply. rewrite run_cleaners_app, Hrun. simpl.
  destruct (Name.run_cleaners cs2 _ _) as [[[| | |t2] [| | |n2]]|e];
    simpl; repeat split; try reflexivity; try discriminate.
Qed.

Lemma apply_in_two_calls_witness :
  fst (Name.apply ([strip_cleaner] ++ [lower_cleaner])%list greeting)
  = fst (Name.apply [lower_cleaner] (Name.mk "Bob" "Hello" None "c" (Some 3)))
  /\ (fst (Name.apply [lower_cleaner]
             (Name.mk "Bob" "Hello" None "c" (Some 3))) = Ok tt ->
      Name.apply ([strip_cleaner] ++ [lower_cleaner])%list greeting
      = Name.apply [lower_cleaner] (Name.mk "Bob" "Hello" None "c" (Some 3)))
  /\ (forall e,
        fst (Name.apply [lower_cleaner]
               (Name.mk "Bob" "Hello" None "c" (Some 3))) = Raise e ->
        snd (Name.apply ([strip_cleaner] ++ [lower_cleaner])%list greeting)
        = greeting
        /\ snd (Name.apply [lower_cleaner]
                  (Name.mk "Bob" "Hello" None "c" (Some 3)))
           = Name.mk "Bob" "Hello" None "c" (Some 3)).
Proof.
  apply (apply_in_two_calls greeting (Name.mk "Bob" "Hello" None "c" (Some 3))
           [strip_cleaner] [lower_cleaner]).
  reflexivity.
Defined.

(** * Further properties of the Slack connector *)

(** *** Channel lists *)

Lemma split_on_length (sep : ascii) (s : string) :
  length (split_on sep s) = S (count_char sep s).
Proof.
  induction s as [|c rest IH]; simpl; [reflexivity|].
  case_bool_decide; simpl; [now rewrite IH|].
  destruct (split_on sep rest); simpl in *; [discriminate | exact IH].
Qed.

Lemma split_on_pieces (sep : ascii) (s : string) :
  Forall (fun piece => occurs sep piece = false) (split_on sep s).
Proof.
  induction s as [|c rest IH]; simpl; [repeat constructor|].
  case_bool_decide as Hc; [constructor; [reflexivity | exact IH]|].
  destruct (split_on sep rest) as [|piece pieces].
  - repeat constructor. simpl. now rewrite bool_decide_eq_false_2.
  - apply Forall_cons in IH as [Hpiece Hrest].
    constructor; [|exact Hrest].
    simpl. now rewrite bool_decide_eq_false_2.
Qed.

Lemma string_strong_ind (P : string -> Prop) :
  (forall s, (forall t, (String.length t < String.length s)%nat -> P t) -> P s) ->
  forall s, P s.
Proof.
  intros step s.
  assert (H : forall n t, (String.length t < n)%nat -> P t).
  { induction n as [|n IH]; intros t Hlt; [lia|].
    apply step. intros u Hu. apply IH. lia. }
  apply (H (S (String.length s))). lia.
Qed.

Lemma lstrip_eq (a : ascii) (rest : string) :
  lstrip (String a rest)
  = if is_space a then lstrip rest
    else
      match rest with
      | String b rest2 =>
          if is_space2 a b then lstrip rest2
          else
            match rest2 with
            | String c rest3 =>
                if is_space3 a b c then lstrip rest3 else String a rest
            | EmptyString => String a rest
            end
      | EmptyString => String a rest
      end.
Proof. reflexivity. Qed.

Lemma lstrip_occurs (c : ascii) (s : string) :
  occurs c s = false -> occurs c (lstrip s) = false.
Proof.
  induction s as [s IH] using string_strong_ind.
  destruct s as [|a1 [|a2 [|a3 r]]]; intros H;
    try rewrite lstrip_eq; cbv beta iota.
  - reflexivity.
  - destruct (is_space a1); [reflexivity | exact H].
  - simpl in H. apply orb_false_iff in H as [H1 H2].
    destruct (is_space a1).
    { apply IH; [simpl; lia | exact H2]. }
    destruct (is_space2 a1 a2); [reflexivity|].
    simpl. now rewrite H1, H2.
  - simpl in H. apply orb_false_iff in H as [H1 H].
    pose proof H as H23. apply orb_false_iff in H as [H2 H].
    pose proof H as H3.
    destruct (is_space a1).
    { apply IH; [simpl; lia | exact H23]. }
    destruct (is_space2 a1 a2).
    { apply IH; [simpl; lia | exact H3]. }
    destruct (is_space3 a1 a2 a3).
    { apply IH; [simpl; lia|]. simpl in H3.
      apply orb_false_iff in H3 as [_ H3]. exact H3. }
    simpl. now rewrite H1, H23.
Qed.

Lemma rstrip_prefix (s : string) : exists t, s = rstrip s ++ t.
Proof.
  induction s as [|a rest [t IH]]; [exists ""; reflexivity|].
  cbn [rstrip]. cbv zeta.
  destruct (is_space_char _).
  - eexists. reflexivity.
  - exists t. change (String a (rstrip rest) ++ t)
      with (String a (rstrip rest ++ t)). now rewrite <- IH.
Qed.

Lemma occurs_append_l (c : ascii) (a b : string) :
  occurs c (a ++ b) = false -> occurs c a = false.
Proof.
  induction a as [|x r IH]; [reflexivity|].
  change (String x r ++ b) with (String x (r ++ b)). simpl.
  intros H. apply orb_false_iff in H as [Hx Hr].
  now rewrite Hx, (IH Hr).
Qed.

Lemma rstrip_occurs (c : ascii) (s : string) :
  occurs c s = false -> occurs c (rstrip s) = false.
Proof.
  destruct (rstrip_prefix s) as [t Ht]. intros H. rewrite Ht in H.
  exact (occurs_append_l _ _ _ H).
Qed.

Lemma lstrip_no_space (s : string) : starts_space (lstrip s) = false.
Proof.
  induction s as [s IH] using string_strong_ind.
  destruct s as [|a1 [|a2 [|a3 r]]]; try rewrite lstrip_eq; cbv beta iota.
  - reflexivity.
  - destruct (is_space a1) eqn:H1; [reflexivity|].
    simpl. now rewrite H1.
  - destruct (is_space a1) eqn:H1; [apply IH; simpl; lia|].
    destruct (is_space2 a1 a2) eqn:H2; [reflexivity|].
    simpl. now rewrite H1, H2.
  - destruct (is_space a1) eqn:H1; [apply IH; simpl; lia|].
    destruct (is_space2 a1 a2) eqn:H2; [apply IH; simpl; lia|].
    destruct (is_space3 a1 a2 a3) eqn:H3; [apply IH; simpl; lia|].
    simpl. now rewrite H1, H2, H3.
Qed.

Lemma lstrip_fixed (s : string) : starts_space s = false -> lstrip s = s.
Proof.
  destruct s as [|a1 [|a2 [|a3 r]]]; simpl; intros H;
    repeat match goal with
           | H : _ || _ = false |- _ => apply orb_false_iff in H as [? ?]
           end;
    repeat match goal with H : _ = false |- _ => rewrite H; clear H end;
    reflexivity.
Qed.

Lemma starts_space_prefix (p t : string) :
  starts_space (p ++ t) = false -> starts_space p = false.
Proof.
  destruct p as [|a1 [|a2 [|a3 r]]]; [reflexivity| | |].
  - change (String a1 "" ++ t) with (String a1 t). simpl.
    intros H. apply orb_false_iff in H as [-> _]. reflexivity.
  - change (String a1 (String a2 "") ++ t) with (String a1 (String a2 t)).
    simpl. intros H. apply orb_false_iff in H as [-> H].
    apply orb_false_iff in H as [-> _]. reflexivity.
  - change (String a1 (String a2 (String a3 r)) ++ t)
      with (String a1 (String a2 (String a3 (r ++ t)))).
    simpl. intros H. exact H.
Qed.

Lemma lstrip_idem (s : string) : lstrip (lstrip s) = lstrip s.
Proof. apply lstrip_fixed, lstrip_no_space. Qed.

Lemma rstrip_idem (s : string) : rstrip (rstrip s) = rstrip s.
Proof.
  induction s as [|a rest IH]; [reflexivity|].
  cbn [rstrip]. cbv zeta.
  destruct (is_space_char (String a (rstrip rest))) eqn:Hkept; [reflexivity|].
  cbn [rstrip]. cbv zeta. rewrite IH, Hkept. reflexivity.
Qed.

Lemma lstrip_rstrip_lstrip (s : string) :
  lstrip (rstrip (lstrip s)) = rstrip (lstrip s).
Proof.
  apply lstrip_fixed.
  destruct (rstrip_prefix (lstrip s)) as [t Ht].
  apply (starts_space_prefix _ t). rewrite <- Ht. apply lstrip_no_space.
Qed.

Lemma strip_idem (s : string) : strip (strip s) = strip s.
Proof.
  unfold strip. rewrite lstrip_rstrip_lstrip. apply rstrip_idem.
Qed.

Example strip_unicode_space :
  strip (no_break_space ++ " C01" ++ em_space ++ no_break_space) = "C01"
  /\ strip ("C" ++ no_break_space ++ "01") = "C" ++ no_break_space ++ "01"
  /\ strip (em_space ++ " ") = "".
Proof. repeat split. Qed.

(** X6.  [parse_channels] answers one channel more than there are commas
    in its argument: never the empty list, and one empty channel for the
    empty string. *)
Theorem parse_channels_length (channel_str : string) :
  length (SimpleSlackConfig.parse_channels channel_str)
  = S (count_char "," channel_str)
  /\ SimpleSlackConfig.parse_channels channel_str <> []
  /\ SimpleSlackConfig.parse_channels "" = [""].
Proof.
  unfold SimpleSlackConfig.parse_channels.
  rewrite length_map, split_on_length.
  split; [reflexivity|]. split; [|reflexivity].
  intros H. apply (f_equal length) in H.
  rewrite length_map, split_on_length in H. discriminate.
Qed.

(** X7.  Every channel [parse_channels] answers holds no comma and has
    no white space left at either end: stripping it again changes
    nothing. *)
Theorem parse_channels_clean (channel_str : string) :
  Forall (fun channel => occurs "," channel = false /\ strip channel = channel)
         (SimpleSlackConfig.parse_channels channel_str).
Proof.
  unfold SimpleSlackConfig.parse_channels.
  apply Forall_map.
  eapply Forall_impl; [apply split_on_pieces|].
  intros piece Hpiece. simpl. split.
  - unfold strip. apply rstrip_occurs, lstrip_occurs, Hpiece.
  - apply strip_idem.
Qed.

Lemma split_on_prefix (sep : ascii) (pre s : string) :
  occurs sep pre = false ->
  split_on sep (pre ++ s)
  = match split_on sep s with
    | piece :: pieces => (pre ++ piece) :: pieces
    | [] => [pre]
    end.
Proof.
  induction pre as [|a r IH]; intros Hpre.
  - change (EmptyString ++ s) with s.
    pose proof (split_on_length sep s) as Hlen.
    destruct (split_on sep s); [discriminate | reflexivity].
  - simpl in Hpre. apply orb_false_iff in Hpre as [Ha Hr].
    change (String a r ++ s) with (String a (r ++ s)).
    cbn [split_on]. rewrite Ha, (IH Hr).
    destruct (split_on sep s); reflexivity.
Qed.

Lemma append_empty (s : string) : s ++ "" = s.
Proof.
  induction s as [|a r IH]; [reflexivity|].
  change (String a r ++ "") with (String a (r ++ "")). now rewrite IH.
Qed.

Lemma split_on_join (sep : ascii) (pad : string) (pieces : list string) :
  occurs sep pad = false ->
  Forall (fun piece => occurs sep piece = false) pieces ->
  forall first,
    occurs sep first = false ->
    split_on sep (join (String sep pad) (first :: pieces))
    = first :: map (String.append pad) pieces.
Proof.
  intros Hpad Hall. induction Hall as [|piece rest Hpiece Hrest IH];
    intros first Hfirst.
  - change (join (String sep pad) [first]) with first.
    rewrite <- (append_empty first) at 1.
    rewrite (split_on_prefix sep first "" Hfirst). simpl.
    now rewrite append_empty.
  - change (join (String sep pad) (first :: piece :: rest))
      with (first ++ String sep (pad ++ join (String sep pad) (piece :: rest))).
    rewrite (split_on_prefix sep first _ Hfirst).
    change (split_on sep (String sep ?x))
      with (if bool_decide (sep = sep)
            then EmptyString :: split_on sep x
            else match split_on sep x with
                 | p :: ps => String sep p :: ps
                 | [] => [String sep EmptyString]
                 end).
    rewrite bool_decide_eq_true_2 by reflexivity.
    rewrite append_empty, (split_on_prefix sep pad _ Hpad), (IH piece Hpiece).
    reflexivity.
Qed.

(** X8.  Joining channel names with commas, or with a comma and a blank,
    and parsing the result gives the names back, when there is at least
    one name and no name holds a comma or has white space at its ends. *)
Theorem parse_channels_join (channels : list string) :
  channels <> [] ->
  Forall (fun channel => occurs "," channel = false /\ strip channel = channel)
         channels ->
  SimpleSlackConfig.parse_channels (join "," channels) = channels
  /\ SimpleSlackConfig.parse_channels (join ", " channels) = channels.
Proof.
  intros Hne Hall. destruct channels as [|first rest]; [congruence|].
  apply Forall_cons in Hall as [[Hfirst Hstrip] Hrest].
  assert (Hfree : Forall (fun piece => occurs "," piece = false) rest)
    by (eapply Forall_impl; [exact Hrest | intros ? [? _]; assumption]).
  unfold SimpleSlackConfig.parse_channels.
  rewrite (split_on_join "," "" rest eq_refl Hfree first Hfirst).
  rewrite (split_on_join "," " " rest eq_refl Hfree first Hfirst).
  simpl. rewrite Hstrip.
  split; f_equal; rewrite map_map.
  - rewrite <- (map_id rest) at 2. apply map_ext_Forall.
    eapply Forall_impl; [exact Hrest | intros c [_ Hc]; exact Hc].
  - rewrite <- (map_id rest) at 2. apply map_ext_Forall.
    eapply Forall_impl; [exact Hrest | intros c [_ Hc]; exact Hc].
Qed.

Lemma parse_channels_join_witness :
  SimpleSlackConfig.parse_channels (join "," ["C01"; "general"; "C 3"])
  = ["C01"; "general"; "C 3"]
  /\ SimpleSlackConfig.parse_channels (join ", " ["C01"; "general"; "C 3"])
     = ["C01"; "general"; "C 3"].
Proof.
  apply (parse_channels_join ["C01"; "general"; "C 3"]).
  - discriminate.
  - repeat constructor.
Defined.

Section MoreConnectorFacts.

Context (strptime : string -> string -> result datetime)
        (timestamp : datetime -> result Q)
        (fromtimestamp : Q -> result datetime).

Local Abbreviation convert_formats :=
  (SlackIngestDoc.convert_formats strptime timestamp).
Local Abbreviation convert_datetime :=
  (SlackIngestDoc.convert_datetime strptime timestamp).
Local Abbreviation bound := (SlackIngestDoc.bound strptime timestamp).
Local Abbreviation history_call :=
  (SlackIngestDoc.history_call strptime timestamp).
Local Abbreviation _fetch_messages :=
  (SlackIngestDoc._fetch_messages strptime timestamp).
Local Abbreviation file_meta_of := (SlackIngestDoc.file_meta_of fromtimestamp).
Local Abbreviation get_file_metadata :=
  (SlackIngestDoc.get_file_metadata strptime timestamp fromtimestamp).
Local Abbreviation date_created :=
  (SlackIngestDoc.date_created strptime timestamp fromtimestamp).
Local Abbreviation date_modified :=
  (SlackIngestDoc.date_modified strptime timestamp fromtimestamp).
Local Abbreviation get_file_body :=
  (SlackIngestDoc.get_file_body strptime timestamp fromtimestamp).

Lemma convert_formats_outcomes (formats : list string) (s : string) :
  convert_formats formats s <> Raise ValueError
  /\ forall v, convert_formats formats s = Ok v ->
               v = VNone \/ exists q, v = VFloat q.
Proof.
  induction formats as [|format rest [IHr IHv]]; simpl.
  - split; [discriminate|]. intros v [= <-]. now left.
  - destruct (strptime s format) as [d|e]; simpl.
    + destruct (timestamp d) as [q|e].
      * split; [discriminate|]. intros v [= <-]. right. now exists q.
      * destruct e; try (split; [discriminate | discriminate]).
        split; assumption.
    + destruct e; try (split; [discriminate | discriminate]).
      split; assumption.
Qed.

(** X9.  [convert_datetime] never raises [ValueError]: one raised by
    [strptime], or by [timestamp] on a date that did parse, moves the
    loop on to the next format.  What it returns is a float or [None], so
    each bound handed to the history call is the string "0", a float or
    [None]. *)
Theorem convert_datetime_outcomes (s : string) (field : option string) :
  convert_datetime s <> Raise ValueError
  /\ (forall v, convert_datetime s = Ok v ->
                v = VNone \/ exists q, v = VFloat q)
  /\ bound field <> Raise ValueError
  /\ (forall v, bound field = Ok v ->
                v = VStr "0" \/ v = VNone \/ exists q, v = VFloat q).
Proof.
  destruct (convert_formats_outcomes DATE_FORMATS s) as [Hr Hv].
  split; [exact Hr|]. split; [exact Hv|].
  unfold SlackIngestDoc.bound.
  destruct field as [t|].
  - case_bool_decide.
    + split; [discriminate|]. intros v [= <-]. now left.
    + destruct (convert_formats_outcomes DATE_FORMATS t) as [Hr' Hv'].
      split; [exact Hr'|]. intros v Hok. right. apply Hv', Hok.
  - split; [discriminate|]. intros v [= <-]. now left.
Qed.



(** X11.  The dates are read lazily and once.  When [date_created]
    answers, the metadata is stored, the answer is its [date_created],
    and [date_modified] and a second [date_created] answer from the
    stored record without touching the document or the service; a
    document whose metadata was already known is not touched at all.
    When the read raises, there was no metadata and there is none
    after. *)
Theorem dates_read_once (d : SlackIngestDoc.t) (w : World) :
  match date_created (d, w) with
  | (Ok created, (d', w')) =>
      exists meta,
        SlackIngestDoc.file_meta d' = Some meta
        /\ created = SlackFileMeta.date_created meta
        /\ date_modified (d', w')
           = (Ok (SlackFileMeta.date_modified meta), (d', w'))
        /\ date_created (d', w') = (Ok created, (d', w'))
        /\ (is_Some (SlackIngestDoc.file_meta d) -> (d', w') = (d, w))
  | (Raise _, (d', _)) =>
      SlackIngestDoc.file_meta d = None /\ SlackIngestDoc.file_meta d' = None
  end.
Proof.
  unfold SlackIngestDoc.date_created at 1. simpl.
  destruct (SlackIngestDoc.file_meta d) as [meta|] eqn:Hmeta.
  - exists meta.
    unfold SlackIngestDoc.date_modified, SlackIngestDoc.date_created.
    simpl. rewrite Hmeta. repeat split.
  - unfold SlackIngestDoc.get_file_metadata, SlackIngestDoc._fetch_messages.
    destruct (history_call _ w) as [[response|e] w1]; simpl.
    + destruct (file_meta_of (pages response)) as [meta|e]; simpl.
      * exists meta. repeat split; try reflexivity.
        intros [? [=]].
      * rewrite Hmeta. split; reflexivity.
    + destruct e; simpl; rewrite Hmeta; split; reflexivity.
Qed.

Lemma timestamps_of_raises (ms : list message) (e : exn) :
  SlackIngestDoc.timestamps_of ms = Raise e -> e = KeyError.
Proof.
  induction ms as [|m rest IH]; simpl; [discriminate|].
  destruct (ts m); [|congruence].
  destruct (SlackIngestDoc.timestamps_of rest); simpl;
    [discriminate | intros [= <-]; now apply IH].
Qed.

Lemma timestamps_of_missing (ms : list message) :
  (exists m, m ∈ ms /\ ts m = None) ->
  SlackIngestDoc.timestamps_of ms = Raise KeyError.
Proof.
  induction ms as [|m rest IH]; intros (m0 & Hin & Hts).
  - apply elem_of_nil in Hin. destruct Hin.
  - simpl. apply elem_of_cons in Hin as [-> | Hin].
    + now rewrite Hts.
    + destruct (ts m); [|reflexivity].
      rewrite IH by eauto. reflexivity.
Qed.

(** X12.  One message without the key ["ts"], anywhere in the list,
    makes [get_file_metadata] raise [KeyError], whatever the other
    messages hold; no metadata is stored and the document is
    unchanged. *)
Theorem get_file_metadata_missing_ts (ms : list message)
    (d : SlackIngestDoc.t) (w : World) :
  (exists m, m ∈ ms /\ ts m = None) ->
  get_file_metadata (Some ms) (d, w) = (Raise KeyError, (d, w)).
Proof.
  intros Hmissing.
  unfold SlackIngestDoc.get_file_metadata, SlackIngestDoc.file_meta_of.
  simpl. rewrite (timestamps_of_missing ms Hmissing). reflexivity.
Qed.

End MoreConnectorFacts.

Lemma get_file_metadata_missing_ts_witness :
  SlackIngestDoc.get_file_metadata strptime_ascii timestamp_utc
    fromtimestamp_utc
    (Some [msg "100" "a"; mk_message None (Some "b"); msg "250" "c"])
    (fresh_doc, quiet_world down_service)
  = (Raise KeyError, (fresh_doc, quiet_world down_service)).
Proof.
  apply (get_file_metadata_missing_ts strptime_ascii timestamp_utc
           fromtimestamp_utc).
  exists (mk_message None (Some "b")). split; [|reflexivity].
  right. left.
Defined.

Lemma file_meta_of_int_timestamps_witness :
  exists lo hi,
    lo ∈ [100; 500; 250] /\ hi ∈ [100; 500; 250]
    /\ (forall z, z ∈ [100; 500; 250] -> lo <= z <= hi)
    /\ SlackIngestDoc.file_meta_of fromtimestamp_utc
         [ mk_message (Some (VInt 100)) None;
           mk_message (Some (VInt 500)) None;
           mk_message (Some (VInt 250)) None ]
       = (let! created := fromtimestamp_utc (inject_Z lo) in
          let! modified := fromtimestamp_utc (inject_Z hi) in
          Ok (SlackFileMeta.mk (isoformat created) (isoformat modified))).
Proof.
  apply (file_meta_of_int_timestamps fromtimestamp_utc
           [ mk_message (Some (VInt 100)) None;
             mk_message (Some (VInt 500)) None;
             mk_message (Some (VInt 250)) None ]
           [100; 500; 250]).
  - reflexivity.
  - discriminate.
Defined.

Section FetchFacts.

Context (strptime : string -> string -> result datetime)
        (timestamp : datetime -> result Q)
        (fromtimestamp : Q -> result datetime).

Local Abbreviation bound := (SlackIngestDoc.bound strptime timestamp).
Local Abbreviation get_file_metadata :=
  (SlackIngestDoc.get_file_metadata strptime timestamp fromtimestamp).
Local Abbreviation get_file_body :=
  (SlackIngestDoc.get_file_body strptime timestamp fromtimestamp).

Lemma replies_loop_world (fuel : nat) :
  forall d m text_elem cursor w r w',
    SlackIngestDoc.replies_loop fuel d m text_elem cursor w = Some (r, w') ->
    files w' = files w /\ dirs w' = dirs w /\ api w' = api w.
Proof.
  induction fuel as [|fuel IH]; intros d m text_elem cursor w r w';
    simpl; [discriminate|].
  destruct (ts m) as [v|]; [|intros [= _ <-]; repeat split].
  destruct (api w (calls w) _) as [response|e].
  - destruct (SlackIngestDoc.add_replies _ _) as [t'|e1];
      [|intros [= _ <-]; repeat split].
    destruct (has_more response); simpl;
      [|intros [= _ <-]; repeat split].
    intros H. apply IH in H. exact H.
  - destruct e; try (intros [= _ <-]; repeat split).
    intros H. apply IH in H. exact H.
Qed.

Lemma message_loop_world (fuel : nat) (d : SlackIngestDoc.t)
    (ms : list message) :
  forall w r w',
    SlackIngestDoc.message_loop fuel d ms w = Some (r, w') ->
    files w' = files w /\ dirs w' = dirs w /\ api w' = api w
    /\ forall root, r = Ok root -> length root = length ms.
Proof.
  induction ms as [|m rest IH]; intros w r w'; simpl.
  - intros [= <- <-]. repeat split. intros root [= <-]. reflexivity.
  - destruct (SlackIngestDoc.replies_loop _ _ _ _ _ _)
      as [[[t|e1] w1]|] eqn:Hloop; [| |discriminate].
    + apply replies_loop_world in Hloop as (Hf1 & Hd1 & Ha1).
      destruct (SlackIngestDoc.message_loop _ _ _ _)
        as [[[texts|e2] w2]|] eqn:Hrest; [| |discriminate].
      * apply IH in Hrest as (Hf2 & Hd2 & Ha2 & Hlen).
        intros [= <- <-]. repeat split; try congruence.
        intros root [= <-]. simpl. f_equal. now apply Hlen.
      * apply IH in Hrest as (Hf2 & Hd2 & Ha2 & _).
        intros [= <- <-]. repeat split; congruence.
    + apply replies_loop_world in Hloop as (Hf1 & Hd1 & Ha1).
      intros [= <- <-]. repeat split; try assumption; congruence.
Qed.

(** X13.  When the body of [get_file] returns normally, the history call
    was answered with at least one message, the staged file has been
    written at the document's staging path with one text element for each
    of these messages, no other path has changed, [file_exists] is [True]
    and the metadata is stored. *)
Theorem get_file_body_staged (fuel : nat) (d : SlackIngestDoc.t) (w : World) :
  match get_file_body fuel (d, w) with
  | Some (Ok _, (d', w')) =>
      exists o l response root,
        api w (calls w)
          (conversations_history (SlackIngestDoc.channel d) o l)
        = Ok response
        /\ messages response <> []
        /\ length root = length (messages response)
        /\ files w' = <[ SlackIngestDoc.filename d := root ]> (files w)
        /\ SlackIngestDoc.filename d' = SlackIngestDoc.filename d
        /\ SlackIngestDoc.file_exists d' = Some true
        /\ is_Some (SlackIngestDoc.file_meta d')
  | _ => True
  end.
Proof.
  unfold SlackIngestDoc.get_file_body, SlackIngestDoc._fetch_messages,
    SlackIngestDoc.history_call.
  cbn [SlackIngestDoc.set_client SlackIngestDoc.oldest SlackIngestDoc.latest
       SlackIngestDoc.channel SlackIngestDoc.config].
  destruct (bound (SlackIngestDoc.oldest d)) as [o|e1];
    [|destruct e1; exact I].
  destruct (bound (SlackIngestDoc.latest d)) as [l|e2];
    [|destruct e2; exact I].
  unfold call_api.
  set (w0 := if SimpleSlackConfig.verbose (SlackIngestDoc.config d)
             then _ else _).
  assert (Hw0 : api w0 = api w /\ calls w0 = calls w /\ files w0 = files w).
  { subst w0. destruct (SimpleSlackConfig.verbose _); repeat split. }
  destruct Hw0 as (Ha0 & Hc0 & Hf0). rewrite Ha0, Hc0.
  destruct (api w (calls w) _) as [response|e] eqn:Hapi;
    [|destruct e; exact I].
  destruct (SlackIngestDoc.message_loop _ _ _ _)
    as [[[root|e] w1]|] eqn:Hloop; try exact I.
  apply message_loop_world in Hloop as (Hf1 & _ & _ & Hlen).
  unfold SlackIngestDoc.get_file_metadata. cbn [rbind].
  destruct (SlackIngestDoc.file_meta_of fromtimestamp (messages response))
    as [meta|e] eqn:Hmeta; [|exact I].
  exists o, l, response, root.
  split; [exact Hapi|]. split.
  { intros Hempty. rewrite Hempty in Hmeta. discriminate. }
  split; [now apply Hlen|].
  split; [simpl; rewrite Hf1; simpl; rewrite Hf0; reflexivity|].
  repeat split. eexists; reflexivity.
Qed.

Local Abbreviation get_file_body_io :=
  (SlackIngestDoc.get_file_body_io strptime timestamp fromtimestamp).

(** On a file system that does not fail the two bodies are one. *)
Lemma get_file_body_io_no_faults (fuel : nat) (st : SlackIngestDoc.t * World) :
  get_file_body_io no_faults fuel st = get_file_body fuel st.
Proof. destruct st as [d w]. reflexivity. Qed.


(** A write that fails on a full disk: the exception reaches the
    caller with the metadata stored and a partial file staged. *)
Example get_file_body_disk_full :
  exists d' w',
    SlackIngestDoc.get_file_body_io strptime_ascii timestamp_utc
      fromtimestamp_utc disk_full 1
      (fresh_doc, quiet_world (steady_service [msg "100" "a"; msg "500" "b"]))
    = Some (Raise OSError, (d', w'))
    /\ SlackIngestDoc.file_exists d' = Some true
    /\ SlackIngestDoc.file_meta d'
       = Some (SlackFileMeta.mk "1970-01-01T00:01:40" "1970-01-01T00:08:20")
    /\ files w' !! SlackIngestDoc.filename fresh_doc = Some [Some "a"].
Proof.
  eexists _, _. split; [vm_compute; reflexivity|].
  repeat split.
Qed.

(** X15.  When the history call answers with a first message that has a
    timestamp and the service fails every call for replies with a
    [SlackApiError], the body of [get_file] never returns: the loop over
    the replies prints the error and asks again, whatever the number of
    turns it is given. *)
Theorem get_file_body_never_returns (fuel : nat) (d : SlackIngestDoc.t)
    (w : World) (o l : PyVal) (response : SlackResponse) (m : message)
    (rest : list message) :
  bound (SlackIngestDoc.oldest d) = Ok o ->
  bound (SlackIngestDoc.latest d) = Ok l ->
  api w (calls w) (conversations_history (SlackIngestDoc.channel d) o l)
  = Ok response ->
  messages response = m :: rest ->
  is_Some (ts m) ->
  (forall past c, is_replies_call c = true ->
     api w past c = Raise SlackApiError) ->
  get_file_body fuel (d, w) = None.
Proof.
  intros Ho Hl Hok Hms Hts Hdown.
  unfold SlackIngestDoc.get_file_body, SlackIngestDoc._fetch_messages,
    SlackIngestDoc.history_call.
  cbn [SlackIngestDoc.set_client SlackIngestDoc.oldest SlackIngestDoc.latest
       SlackIngestDoc.channel SlackIngestDoc.config].
  rewrite Ho, Hl. unfold call_api.
  set (w0 := if SimpleSlackConfig.verbose (SlackIngestDoc.config d)
             then _ else _).
  assert (Hw0 : api w0 = api w /\ calls w0 = calls w).
  { subst w0. destruct (SimpleSlackConfig.verbose _); split; reflexivity. }
  destruct Hw0 as (Ha0 & Hc0). rewrite Ha0, Hc0, Hok, Hms.
  cbn [SlackIngestDoc.message_loop].
  rewrite replies_loop_spins_on_errors; [reflexivity | exact Hts |].
  intros past c Hc. cbn [api]. now apply Hdown.
Qed.

End FetchFacts.

Lemma get_file_body_never_returns_witness :
  SlackIngestDoc.get_file_body strptime_ascii timestamp_utc fromtimestamp_utc
    7 (fresh_doc, quiet_world no_replies_service)
  = None.
Proof.
  apply (get_file_body_never_returns strptime_ascii timestamp_utc
           fromtimestamp_utc 7 fresh_doc (quiet_world no_replies_service)
           (VStr "0") (VStr "0")
           (mk_response [msg "100" "hi"] [msg "100" "hi"] false VNone)
           (msg "100" "hi") []).
  - reflexivity.
  - reflexivity.
  - reflexivity.
  - reflexivity.
  - eexists. reflexivity.
  - intros past c Hc. cbn [api quiet_world]. unfold no_replies_service.
    rewrite Hc. reflexivity.
Defined.

(** The body of [get_file] on a healthy service: the three messages are
    staged, each with the replies the service answers. *)
Example get_file_body_three_messages :
  match SlackIngestDoc.get_file_body strptime_ascii timestamp_utc
          fromtimestamp_utc 1
          (fresh_doc, quiet_world (steady_service three_messages)) with
  | Some (Ok _, (d', w')) =>
      files w' !! SlackIngestDoc.filename fresh_doc
      = Some [ Some "a <reply> a <reply> b <reply> c";
               Some "b <reply> a <reply> b <reply> c";
               Some "c <reply> a <reply> b <reply> c" ]
      /\ SlackIngestDoc.file_exists d' = Some true
      /\ SlackIngestDoc.file_meta d'
         = Some (SlackFileMeta.mk "1970-01-01T00:01:40" "1970-01-01T00:08:20")
  | _ => False
  end.
Proof. vm_compute. repeat split; reflexivity. Qed.

(** *** Replies, documents and paths *)

Lemma append_assoc (a b c : string) : (a ++ b) ++ c = a ++ (b ++ c).
Proof.
  induction a as [|x r IH]; [reflexivity|].
  change ((String x r ++ b) ++ c) with (String x ((r ++ b) ++ c)).
  now rewrite IH.
Qed.

Lemma append_length (a b : string) :
  String.length (a ++ b) = (String.length a + String.length b)%nat.
Proof.
  induction a as [|x r IH]; [reflexivity|].
  change (String.length (String x r ++ b)) with (S (String.length (r ++ b))).
  now rewrite IH.
Qed.

Lemma append_suffix_inj (a b suffix : string) :
  a ++ suffix = b ++ suffix -> a = b.
Proof.
  revert b. induction a as [|x r IH]; intros [|y q] H.
  - reflexivity.
  - apply (f_equal String.length) in H. rewrite !append_length in H.
    simpl in H. lia.
  - apply (f_equal String.length) in H. rewrite !append_length in H.
    simpl in H. lia.
  - change (String x (r ++ suffix) = String y (q ++ suffix)) in H.
    injection H as -> H. f_equal. now apply IH.
Qed.

Lemma append_chars (a b : string) :
  list_ascii_of_string (a ++ b)
  = (list_ascii_of_string a ++ list_ascii_of_string b)%list.
Proof.
  induction a as [|x r IH]; [reflexivity|].
  change (list_ascii_of_string (String x r ++ b))
    with (x :: list_ascii_of_string (r ++ b)).
  now rewrite IH.
Qed.

(** X16.  The text of a message element after its replies: with no
    reply it is the text of the message, [None] included; otherwise it
    is [str] of that text, which is "None" for a message without text,
    followed by " <reply> " and the text of each reply in turn.  One
    reply without text makes the join raise [TypeError]. *)
Theorem add_replies_text (text_elem : option string) (replies : list message) :
  (forall reply_texts,
     map text replies = map Some reply_texts ->
     SlackIngestDoc.add_replies text_elem replies
     = Ok (match reply_texts with
           | [] => text_elem
           | _ => Some (str_of_optional text_elem
                        ++ replies_suffix reply_texts)
           end))
  /\ ((exists reply, reply ∈ replies /\ text reply = None) ->
      SlackIngestDoc.add_replies text_elem replies = Raise TypeError).
Proof.
  split.
  - revert text_elem.
    induction replies as [|r rest IH]; intros text_elem [|x xs] Heq;
      simpl in Heq; try discriminate; [reflexivity|].
    injection Heq as Hr Hrest. simpl. rewrite Hr.
    rewrite (IH _ xs Hrest). f_equal.
    destruct xs as [|x' xs'].
    + change (replies_suffix [x]) with (" <reply> " ++ x ++ "").
      now rewrite append_empty.
    + f_equal. simpl str_of_optional.
      change (replies_suffix (x :: x' :: xs'))
        with (" <reply> " ++ x ++ replies_suffix (x' :: xs')).
      now rewrite !append_assoc.
  - revert text_elem.
    induction replies as [|r rest IH]; intros text_elem (r0 & Hin & Hnone).
    + apply elem_of_nil in Hin. destruct Hin.
    + simpl. apply elem_of_cons in Hin as [-> | Hin].
      * now rewrite Hnone.
      * destruct (text r); [|reflexivity]. apply IH. eauto.
Qed.

(** ** Paths of files whose name is built from a channel *)

Lemma split_on_none (sep : ascii) (s : string) :
  occurs sep s = false -> split_on sep s = [s].
Proof.
  induction s as [|c rest IH]; [reflexivity|]. simpl. intros H.
  apply orb_false_iff in H as [Hc Hrest]. rewrite Hc, (IH Hrest). reflexivity.
Qed.

Lemma occurs_append (sep : ascii) (a b : string) :
  occurs sep (a ++ b) = occurs sep a || occurs sep b.
Proof.
  induction a as [|c rest IH]; [reflexivity|].
  change (String c rest ++ b) with (String c (rest ++ b)). simpl.
  rewrite IH. apply orb_assoc.
Qed.

(** The pieces of [c ++ ext], for an [ext] without separator: those of
    [c], the last one with [ext] added. *)
Lemma split_on_append_last (sep : ascii) (c ext : string) :
  occurs sep ext = false ->
  split_on sep (c ++ ext)
  = (removelast (split_on sep c)
     ++ [(List.last (split_on sep c) "" ++ ext)%string])%list.
Proof.
  intros Hext. induction c as [|x r IH].
  - simpl. apply split_on_none, Hext.
  - change (String x r ++ ext) with (String x (r ++ ext)).
    cbn [split_on]. rewrite IH.
    pose proof (split_on_length sep r) as Hlen.
    destruct (split_on sep r) as [|piece pieces]; [simpl in Hlen; lia|].
    case_bool_decide.
    + destruct pieces; reflexivity.
    + destruct pieces; reflexivity.
Qed.

Lemma path_parts_append (c ext : string) :
  occurs "/" ext = false ->
  (2 <= String.length ext)%nat ->
  exists dirs,
    path_parts (c ++ ext)
    = (dirs ++ [(List.last (split_on "/" c) "" ++ ext)%string])%list.
Proof.
  intros Hext Hlen. unfold path_parts.
  rewrite (split_on_append_last _ _ _ Hext), filter_app.
  eexists. f_equal. rewrite filter_cons_True; [reflexivity|].
  split; intros H; apply (f_equal String.length) in H;
    rewrite append_length in H; simpl in H; lia.
Qed.

(** The name of [Path(directory) / (c ++ ext)] is what follows the last
    slash of [c], with [ext]. *)
Lemma file_path_name (directory c ext : string) :
  occurs "/" ext = false ->
  (2 <= String.length ext)%nat ->
  snd (file_path directory (c ++ ext))
  = List.last (split_on "/" c) "" ++ ext.
Proof.
  intros Hext Hlen. unfold file_path, path_name, joinpath, parse_path.
  destruct (path_parts_append c ext Hext Hlen) as [dirs ->].
  case_bool_decide; cbn [fst snd].
  - rewrite app_assoc. apply last_last.
  - apply last_last.
Qed.

(** For a file name that holds no slash the path is the directory, as
    pathlib writes it, and that name. *)
Lemma file_path_plain (directory c ext : string) :
  occurs "/" c = false ->
  occurs "/" ext = false ->
  (2 <= String.length ext)%nat ->
  file_path directory (c ++ ext) = (path_str (parse_path directory), c ++ ext).
Proof.
  intros Hc Hext Hlen. unfold file_path, path_name, path_parent, joinpath.
  assert (Hparts : path_parts (c ++ ext) = [c ++ ext]).
  { unfold path_parts. rewrite split_on_none
      by (rewrite occurs_append, Hc, Hext; reflexivity).
    rewrite filter_cons_True; [reflexivity|].
    split; intros H; apply (f_equal String.length) in H;
      rewrite append_length in H; simpl in H; lia. }
  assert (Hroot : path_root (c ++ ext) = "").
  { assert (Hocc : occurs "/" (c ++ ext) = false)
      by (rewrite occurs_append, Hc, Hext; reflexivity).
    destruct (c ++ ext) as [|x r]; [reflexivity|].
    simpl in Hocc. apply orb_false_iff in Hocc as [Hx _].
    unfold path_root, is_slash. rewrite Hx. reflexivity. }
  rewrite Hroot, Hparts, bool_decide_eq_true_2 by reflexivity.
  cbn [fst snd]. rewrite removelast_last, last_last.
  destruct (parse_path directory) as [root parts]. reflexivity.
Qed.

Example file_path_normalises :
  file_path "/tmp/slack" "./C01.xml" = ("/tmp/slack", "C01.xml")
  /\ file_path "/tmp//slack/" "C01.xml" = ("/tmp/slack", "C01.xml")
  /\ file_path "/tmp/slack" "/etc/C01.xml" = ("/etc", "C01.xml")
  /\ file_path "" "C01.xml" = (".", "C01.xml")
  /\ file_path "//srv" "C01.xml" = ("//srv", "C01.xml")
  /\ file_path "/tmp/slack" "a/../C01.xml" = ("/tmp/slack/a/..", "C01.xml").
Proof. repeat split. Qed.

(** Two channel names that differ and are staged at one path. *)
Example staging_paths_can_coincide :
  SlackIngestDoc.channel fresh_doc <> SlackIngestDoc.channel dotted_doc
  /\ SlackIngestDoc.filename fresh_doc = SlackIngestDoc.filename dotted_doc.
Proof. split; [discriminate | reflexivity]. Qed.

(** X17.  [get_ingest_docs] builds one document for each configured
    channel, in the order of the configuration, each with the token and
    the bounds of the configuration, [file_exists = False] and no
    metadata.  When no channel name contains a slash, so that the file
    name built from it is one component of the path, channels that
    differ have staging paths that differ and output paths that differ
    (POSIX paths). *)
Theorem get_ingest_docs_per_channel (standard_config : StandardConnectorConfig)
    (config : SimpleSlackConfig.t) :
  let docs := SlackConnector.get_ingest_docs standard_config config in
  map SlackIngestDoc.channel docs = SimpleSlackConfig.channels config
  /\ Forall (fun d =>
               SlackIngestDoc.token d = SimpleSlackConfig.token config
               /\ SlackIngestDoc.oldest d = SimpleSlackConfig.oldest config
               /\ SlackIngestDoc.latest d = SimpleSlackConfig.latest config
               /\ SlackIngestDoc.file_exists d = Some false
               /\ SlackIngestDoc.file_meta d = None)
            docs
  /\ (Forall (fun c => occurs "/" c = false)
        (SimpleSlackConfig.channels config) ->
      NoDup (SimpleSlackConfig.channels config) ->
      NoDup (map SlackIngestDoc.filename docs)
      /\ NoDup (map SlackIngestDoc._output_filename docs)).
Proof.
  unfold SlackConnector.get_ingest_docs. cbv zeta.
  split; [|split].
  - rewrite map_map. simpl. apply map_id.
  - apply Forall_map, Forall_forall. intros c _. simpl. repeat split.
  - intros Hplain Hnodup. rewrite !map_map.
    rewrite Forall_forall in Hplain. split.
    + apply (NoDup_fmap_2_strong
               (fun c => SlackIngestDoc.filename
                           (SlackIngestDoc.new standard_config config c
                              (SimpleSlackConfig.token config)
                              (SimpleSlackConfig.oldest config)
                              (SimpleSlackConfig.latest config))));
        [|exact Hnodup].
      intros c1 c2 H1 H2.
      unfold SlackIngestDoc.filename, SlackIngestDoc._tmp_download_file,
        SlackIngestDoc._output_filename, SlackIngestDoc.new; cbn [
        SlackIngestDoc.standard_config SlackIngestDoc.channel].
      rewrite !file_path_plain by (simpl; auto; lia).
      intros [= H]. eapply append_suffix_inj, H.
    + apply (NoDup_fmap_2_strong
               (fun c => SlackIngestDoc._output_filename
                           (SlackIngestDoc.new standard_config config c
                              (SimpleSlackConfig.token config)
                              (SimpleSlackConfig.oldest config)
                              (SimpleSlackConfig.latest config))));
        [|exact Hnodup].
      intros c1 c2 H1 H2.
      unfold SlackIngestDoc.filename, SlackIngestDoc._tmp_download_file,
        SlackIngestDoc._output_filename, SlackIngestDoc.new; cbn [
        SlackIngestDoc.standard_config SlackIngestDoc.channel].
      rewrite !file_path_plain by (simpl; auto; lia).
      intros [= H]. eapply append_suffix_inj, H.
Qed.

(** X18.  The staging path of a document is never the output path of a
    document, the same or another, also when the download directory and
    the output directory are one directory: the file names end
    differently. *)
Theorem staging_path_is_no_output_path (d1 d2 : SlackIngestDoc.t) :
  SlackIngestDoc.filename d1 <> SlackIngestDoc._output_filename d2.
Proof.
  unfold SlackIngestDoc.filename, SlackIngestDoc._tmp_download_file,
    SlackIngestDoc._output_filename.
  intros H. apply (f_equal snd) in H.
  rewrite !file_path_name in H by (simpl; auto; lia).
  apply (f_equal (fun s => last (list_ascii_of_string s))) in H.
  rewrite !append_chars, !last_app in H. simpl in H. discriminate.
Qed.

Lemma exists_ingest_doc_no_probe_witness :
  SlackIngestDoc.exists_ strptime_ascii timestamp_utc fromtimestamp_utc
    (fresh_doc, quiet_world down_service)
  = (Ok (Some false), (fresh_doc, quiet_world down_service)).
Proof.
  apply (exists_ingest_doc_no_probe std_config slack_config fresh_doc
           (quiet_world down_service)).
  left.
Defined.

Lemma strptime_ascii_raises (s format : string) :
  strptime_ascii s format <> Raise SlackApiError.
Proof.
  unfold strptime_ascii.
  destruct (strptime_go _ _ _); [|discriminate].
  match goal with |- context [if ?c then _ else _] => destruct c end;
    discriminate.
Qed.

Lemma fromtimestamp_utc_raises (q : Q) :
  fromtimestamp_utc q <> Raise SlackApiError.
Proof.
  unfold fromtimestamp_utc.
  destruct (civil_from_days _) as [[y m] d].
  match goal with |- context [if ?c then _ else _] => destruct c end;
    discriminate.
Qed.

Lemma get_file_api_error_is_history_error_witness :
  exists o l,
    SlackIngestDoc.bound strptime_ascii timestamp_utc
      (SlackIngestDoc.oldest fresh_doc) = Ok o
    /\ SlackIngestDoc.bound strptime_ascii timestamp_utc
         (SlackIngestDoc.latest fresh_doc) = Ok l
    /\ api (quiet_world down_service) (calls (quiet_world down_service))
         (conversations_history (SlackIngestDoc.channel fresh_doc) o l)
       = Raise SlackApiError
    /\ SlackIngestDoc.file_exists
         (SlackIngestDoc.set_file_exists (Some false)
            (SlackIngestDoc.set_client (Some "xoxb-1") fresh_doc))
       = Some false.
Proof.
  apply (get_file_api_error_is_history_error strptime_ascii timestamp_utc
           fromtimestamp_utc 1 fresh_doc
           (SlackIngestDoc.set_file_exists (Some false)
              (SlackIngestDoc.set_client (Some "xoxb-1") fresh_doc))
           (quiet_world down_service)
           (emit "Error: SlackApiError"
              (snd (call_api
                      (conversations_history "C01" (VStr "0") (VStr "0"))
                      (mkdir "/tmp/slack" (quiet_world down_service)))))).
  - apply strptime_ascii_raises.
  - discriminate.
  - apply fromtimestamp_utc_raises.
  - reflexivity.
Defined.

Lemma get_file_no_messages_witness :
  exists d' w',
    SlackIngestDoc.get_file strptime_ascii timestamp_utc fromtimestamp_utc 1
      (fresh_doc, quiet_world (steady_service []))
    = Some (Raise UnboundLocalError, (d', w'))
    /\ SlackIngestDoc.file_exists d' = Some true
    /\ SlackIngestDoc.file_meta d' = SlackIngestDoc.file_meta fresh_doc
    /\ files w' = files (quiet_world (steady_service [])).
Proof.
  apply (get_file_no_messages strptime_ascii timestamp_utc fromtimestamp_utc
           1 fresh_doc (quiet_world (steady_service []))
           (VStr "0") (VStr "0") (mk_response [] [] false VNone)).
  - apply lookup_empty.
  - reflexivity.
  - reflexivity.
  - reflexivity.
  - reflexivity.
Defined.

(** *** Timestamps of more than one kind *)

Lemma py_lt_ok_kind (a b : PyVal) (r : bool) :
  py_lt a b = Ok r -> kind_of a = kind_of b /\ kind_of a <> KNone.
Proof. destruct a, b; simpl; intros [=]; split; congruence. Qed.

Lemma py_lt_raises (a b : PyVal) (e : exn) :
  py_lt a b = Raise e -> e = TypeError.
Proof. destruct a, b; simpl; congruence. Qed.

Lemma py_insert_outcome (x : PyVal) (l : list PyVal) :
  match py_insert x l with
  | Ok l' => l' ≡ₚ x :: l
  | Raise e => e = TypeError
  end.
Proof.
  induction l as [|y rest IH]; simpl; [reflexivity|].
  destruct (py_lt y x) as [[|]|e] eqn:Hlt; simpl.
  - destruct (py_insert x rest) as [rest'|e]; simpl; [|exact IH].
    rewrite IH. apply Permutation_swap.
  - reflexivity.
  - eapply py_lt_raises, Hlt.
Qed.

Lemma py_sort_outcome (l : list PyVal) :
  match py_sort l with
  | Ok l' => l' ≡ₚ l
  | Raise e => e = TypeError
  end.
Proof.
  induction l as [|x rest IH]; simpl; [reflexivity|].
  destruct (py_sort rest) as [sorted|e]; simpl; [|exact IH].
  pose proof (py_insert_outcome x sorted) as Hins.
  destruct (py_insert x sorted) as [l'|e]; [|exact Hins].
  rewrite Hins, IH. reflexivity.
Qed.

Lemma py_sort_ok_kinds (l : list PyVal) :
  is_ok (py_sort l) = true ->
  (forall a b, a ∈ l -> b ∈ l -> kind_of a = kind_of b)
  /\ ((2 <= length l)%nat -> forall a, a ∈ l -> kind_of a <> KNone).
Proof.
  induction l as [|x rest IH]; simpl.
  - intros _. split.
    + intros a b Ha. apply elem_of_nil in Ha. destruct Ha.
    + intros _ a Ha. apply elem_of_nil in Ha. destruct Ha.
  - pose proof (py_sort_outcome rest) as Hperm.
    destruct (py_sort rest) as [sorted|e]; simpl; [|discriminate].
    destruct (IH eq_refl) as [Hsame _].
    destruct sorted as [|y sorted'].
    + apply Permutation_nil_l in Hperm. subst rest. intros _. split.
      * intros a b Ha Hb.
        apply list_elem_of_singleton in Ha, Hb. congruence.
      * simpl. lia.
    + simpl. destruct (py_lt y x) as [r|e] eqn:Hlt; simpl; [|discriminate].
      intros _. apply py_lt_ok_kind in Hlt as [Hyx Hy].
      assert (Hyin : y ∈ rest) by (rewrite <- Hperm; left).
      assert (Hall : forall a, a ∈ x :: rest -> kind_of a = kind_of y).
      { intros a Ha. apply elem_of_cons in Ha as [-> | Ha];
          [congruence | now apply Hsame]. }
      split.
      * intros a b Ha Hb. rewrite (Hall a Ha), (Hall b Hb). reflexivity.
      * intros _ a Ha. rewrite (Hall a Ha). exact Hy.
Qed.

Section MixedTimestamps.

Context (strptime : string -> string -> result datetime)
        (timestamp : datetime -> result Q)
        (fromtimestamp : Q -> result datetime).

(** X19.  Timestamps that [<] cannot order among themselves make
    [get_file_metadata] raise [TypeError] in the sort, before any
    conversion: a [str] beside a number, or a [None] in a list of two or
    more.  No metadata is stored. *)
Theorem get_file_metadata_mixed_timestamps (ms : list message)
    (stamps : list PyVal) (d : SlackIngestDoc.t) (w : World) :
  SlackIngestDoc.timestamps_of ms = Ok stamps ->
  (exists a b, a ∈ stamps /\ b ∈ stamps /\ kind_of a <> kind_of b)
  \/ ((2 <= length stamps)%nat /\ VNone ∈ stamps) ->
  SlackIngestDoc.get_file_metadata strptime timestamp fromtimestamp
    (Some ms) (d, w)
  = (Raise TypeError, (d, w)).
Proof.
  intros Hts Hmixed.
  unfold SlackIngestDoc.get_file_metadata, SlackIngestDoc.file_meta_of.
  cbn [rbind]. rewrite Hts. cbn [rbind].
  pose proof (py_sort_outcome stamps) as Hout.
  pose proof (py_sort_ok_kinds stamps) as Hkinds.
  destruct (py_sort stamps) as [sorted|e]; [|subst e; reflexivity].
  exfalso. destruct (Hkinds eq_refl) as [Hsame Hnone].
  destruct Hmixed as [(a & b & Ha & Hb & Hne) | [Hlen Hin]].
  - apply Hne, Hsame; assumption.
  - apply (Hnone Hlen VNone Hin). reflexivity.
Qed.

End MixedTimestamps.

Lemma get_file_metadata_mixed_timestamps_witness :
  SlackIngestDoc.get_file_metadata strptime_ascii timestamp_utc
    fromtimestamp_utc
    (Some [msg "100" "a"; mk_message (Some (VInt 500)) (Some "b")])
    (fresh_doc, quiet_world down_service)
  = (Raise TypeError, (fresh_doc, quiet_world down_service)).
Proof.
  apply (get_file_metadata_mixed_timestamps strptime_ascii timestamp_utc
           fromtimestamp_utc
           [msg "100" "a"; mk_message (Some (VInt 500)) (Some "b")]
           [VStr "100"; VInt 500]).
  - reflexivity.
  - left. exists (VStr "100"), (VInt 500).
    split; [left|]. split; [right; left | discriminate].
Defined.

Section ProbeFacts.

Context (strptime : string -> string -> result datetime)
        (timestamp : datetime -> result Q)
        (fromtimestamp : Q -> result datetime).


End ProbeFacts.


Example date_created_fresh_doc :
  fst (SlackIngestDoc.date_created strptime_ascii timestamp_utc
         fromtimestamp_utc
         (fresh_doc, quiet_world (steady_service three_messages)))
  = Ok "1970-01-01T00:01:40".
Proof. reflexivity. Qed.
